(** * Point-set and image notebooks of the SmartSPIM-to-CCF demo

    A shallow embedding of the two executable notebooks of the repository,
    [code/ApplyTransformToPointSet.ipynb] and [code/LocalFetchFromS3.ipynb],
    together with the library operations they call (Python built-ins, the
    ITK containers, transforms and image information, the zarr store cache).

    Numbers are exact rationals ([Q]): the single-precision rounding of
    [itk.F] is not modelled.  Python exceptions are values of [Py.exn] carried
    by the result type [Py.res]. *)

From Stdlib Require Import ZArith QArith Qabs Lia Lqa List String Ascii.
From Stdlib Require Import Decimal DecimalString DecimalZ DecimalPos.
From stdpp Require Import base list.

Open Scope string_scope.

(** ** Python built-ins used by the notebooks *)

Module Py.

(** The exceptions met in the notebooks.  [ValidationError] is the class the
    specification names for a bad level index; nothing raises it. *)
Inductive exn : Type :=
| KeyError
| IndexError
| TypeError
| ValueError
| ValidationError
| RuntimeError.

Inductive res (A : Type) : Type :=
| Ok (a : A)
| Raise (e : exn).

Arguments Ok {A} a.
Arguments Raise {A} e.

Definition bind {A B : Type} (m : res A) (k : A -> res B) : res B :=
  match m with
  | Ok a => k a
  | Raise e => Raise e
  end.

(** A [for] loop whose body may raise: the state is threaded through the
    iterations and the first exception leaves the loop. *)
Fixpoint for_each {S X : Type} (body : S -> X -> res S) (xs : list X) (s : S)
  : res S :=
  match xs with
  | [] => Ok s
  | x :: xs' => bind (body s x) (for_each body xs')
  end.

(** [range(n)] and [enumerate(l)]. *)
Definition range (n : nat) : list nat := seq 0 n.

Definition enumerate {A : Type} (l : list A) : list (nat * A) :=
  combine (seq 0 (length l)) l.

(** [l[a:b]] for non-negative bounds; works alike on strings (lists of
    characters) and on sequences of fields. *)
Definition slice {A : Type} (a b : nat) (l : list A) : list A :=
  take (b - a) (drop a l).

(** [str(n)] for a non-negative [int]. *)
Definition str_of_nat (n : nat) : string :=
  NilZero.string_of_uint (Nat.to_uint n).

Definition newline : ascii := "010"%char.
Definition nl : string := String newline EmptyString.

(** The lines of a text file, as iterating over the file or
    [str.splitlines] yields them for the terminator [\n]: each line ends at
    a newline, and text after the last newline is a line of its own. *)
Fixpoint splitlines (s : string) : list string :=
  match s with
  | EmptyString => []
  | String c s' =>
      if Ascii.eqb c newline then EmptyString :: splitlines s'
      else match splitlines s' with
           | [] => [String c EmptyString]
           | l :: ls => String c l :: ls
           end
  end.

(** [True] when no character of [s] is a newline. *)
Fixpoint single_line (s : string) : bool :=
  match s with
  | EmptyString => true
  | String c s' => negb (Ascii.eqb c newline) && single_line s'
  end.

End Py.

Notation "'let*' x ':=' m 'in' k" := (Py.bind m (fun x => k))
  (at level 10, x pattern, m at level 100, k at level 200).

(** ** JSON documents as [json.load] returns them *)

Module Json.

#[local] Set Warnings "-register-all".

Inductive value : Type :=
| JNull
| JBool (b : bool)
| JNum (q : Q)
| JStr (s : string)
| JArr (items : list value)
| JObj (fields : list (string * value)).

Fixpoint assoc (k : string) (fields : list (string * value)) : option value :=
  match fields with
  | [] => None
  | (k', v) :: rest => if String.eqb k k' then Some v else assoc k rest
  end.

(** [d[k]] on a [dict]. *)
Definition getitem_key (d : value) (k : string) : Py.res value :=
  match d with
  | JObj fields =>
      match assoc k fields with
      | Some v => Py.Ok v
      | None => Py.Raise Py.KeyError
      end
  | _ => Py.Raise Py.TypeError
  end.

(** A character as the one-character [str] that indexing or iterating a
    [str] yields. *)
Definition char (c : ascii) : value := JStr (String c EmptyString).

(** [l[i]] for a non-negative [int]: an element of a [list], a character of
    a [str]; on a [dict] the index is looked up as a key, and the keys of a
    JSON object are strings. *)
Definition getitem_idx (l : value) (i : nat) : Py.res value :=
  match l with
  | JArr items =>
      match items !! i with
      | Some v => Py.Ok v
      | None => Py.Raise Py.IndexError
      end
  | JStr s =>
      match String.get i s with
      | Some c => Py.Ok (char c)
      | None => Py.Raise Py.IndexError
      end
  | JObj _ => Py.Raise Py.KeyError
  | _ => Py.Raise Py.TypeError
  end.

(** What [enumerate] (or a [for] loop) runs over: the elements of a [list],
    the keys of a [dict], the characters of a [str]; the other values are
    not iterable. *)
Definition iter (l : value) : Py.res (list value) :=
  match l with
  | JArr items => Py.Ok items
  | JObj fields => Py.Ok (map (fun kv => JStr (fst kv)) fields)
  | JStr s => Py.Ok (map char (list_ascii_of_string s))
  | _ => Py.Raise Py.TypeError
  end.

End Json.

(** ** ITK: points, point containers, rigid transforms *)

Module Itk.

Record Point : Type := mkPoint { px : Q; py : Q; pz : Q }.

Definition origin_point : Point := mkPoint 0 0 0.

(** A Python number as a coordinate: an [int] or a [float], and a [bool],
    which is an [int] ([True] is 1, [False] is 0). *)
Definition coordinate_of_json (v : Json.value) : option Q :=
  match v with
  | Json.JNum q => Some q
  | Json.JBool true => Some 1%Q
  | Json.JBool false => Some 0%Q
  | _ => None
  end.

(** Conversion of the Python argument of [InsertElement] to an [itk.Point]:
    a sequence of three numbers gives the point; a sequence of three items
    one of which is no number, and [None], raise [ValueError].  Values of
    other shapes do not occur as positions of a markup; they are counted as
    refused, with [TypeError]. *)
Definition point_of_json (v : Json.value) : Py.res Point :=
  match v with
  | Json.JArr [a; b; c] =>
      match coordinate_of_json a, coordinate_of_json b, coordinate_of_json c with
      | Some x, Some y, Some z => Py.Ok (mkPoint x y z)
      | _, _, _ => Py.Raise Py.ValueError
      end
  | Json.JStr (String _ (String _ (String _ EmptyString))) =>
      Py.Raise Py.ValueError
  | Json.JNull => Py.Raise Py.ValueError
  | _ => Py.Raise Py.TypeError
  end.

(** [itk::VectorContainer::InsertElement(id, element)]: the container is
    grown with default elements up to [id] when [id] lies beyond its end,
    then slot [id] is overwritten. *)
Definition InsertElement {A : Type} (dflt : A) (c : list A) (id : nat) (x : A)
  : list A :=
  if decide (id < length c)%nat then <[id := x]> c
  else c ++ replicate (id - length c) dflt ++ [x].

(** [itk.PointSet[itk.F, 3]]: its points container. *)
Definition PointSet : Type := list Point.

Definition New : PointSet := [].

Definition GetNumberOfPoints (ps : PointSet) : nat := length ps.

(** [GetPoint(id)] raises when the identifier is not in the container. *)
Definition GetPoint (ps : PointSet) (id : nat) : Py.res Point :=
  match ps !! id with
  | Some p => Py.Ok p
  | None => Py.Raise Py.RuntimeError
  end.

Definition InsertPoint (ps : PointSet) (id : nat) (p : Point) : PointSet :=
  InsertElement origin_point ps id p.

(** [itk.VersorRigid3DTransform]: a rotation matrix (derived from the versor),
    a centre of rotation and a translation.  The offset is computed from the
    three as [MatrixOffsetTransformBase::ComputeOffset] does. *)
Record Matrix3 : Type := mkMatrix3 {
  m00 : Q; m01 : Q; m02 : Q;
  m10 : Q; m11 : Q; m12 : Q;
  m20 : Q; m21 : Q; m22 : Q }.

Definition identity3 : Matrix3 := mkMatrix3 1 0 0 0 1 0 0 0 1.

Definition mat_vec (m : Matrix3) (v : Point) : Point :=
  mkPoint (m00 m * px v + m01 m * py v + m02 m * pz v)
          (m10 m * px v + m11 m * py v + m12 m * pz v)
          (m20 m * px v + m21 m * py v + m22 m * pz v).

Record VersorRigid3DTransform : Type := mkVersorRigid {
  Matrix : Matrix3;
  Center : Point;
  Translation : Point }.

Definition Offset (t : VersorRigid3DTransform) : Point :=
  let mc := mat_vec (Matrix t) (Center t) in
  mkPoint (px (Translation t) + px (Center t) - px mc)
          (py (Translation t) + py (Center t) - py mc)
          (pz (Translation t) + pz (Center t) - pz mc).

Definition TransformPoint (t : VersorRigid3DTransform) (p : Point) : Point :=
  let mp := mat_vec (Matrix t) p in
  let o := Offset t in
  mkPoint (px mp + px o) (py mp + py o) (pz mp + pz o).

(** Two points agree within an absolute tolerance on every coordinate. *)
Definition within (eps : Q) (p q : Point) : Prop :=
  (Qabs (px p - px q) <= eps /\ Qabs (py p - py q) <= eps
   /\ Qabs (pz p - pz q) <= eps)%Q.

End Itk.

(** ** [ApplyTransformToPointSet.ipynb] *)

Module PointNotebook.

Import Itk.

(** Cell 3: the stage files.
<<
TRANSFORMS_PATH = f"../data/demo_registration_results_631680"
N_ELASTIX_STAGES = 3
ELASTIX_TRANSFORM_FILENAMES = [
    f"{TRANSFORMS_PATH}/elastix-transform{index}.txt"
    for index in range(N_ELASTIX_STAGES)
]
>> *)
Definition TRANSFORMS_PATH : string := "../data/demo_registration_results_631680".

Definition N_ELASTIX_STAGES : nat := 3.

Definition ELASTIX_TRANSFORM_FILENAMES : list string :=
  map (fun index =>
         TRANSFORMS_PATH ++ "/elastix-transform" ++ Py.str_of_nat index ++ ".txt")
      (Py.range N_ELASTIX_STAGES).

(** Cell 5, "Load Points":
<<
input_points = itk.PointSet[itk.F, 3].New()
for point_id, point in enumerate(points_markup["markups"][0]["controlPoints"]):
    input_points.GetPoints().InsertElement(point_id, point["position"])
>> *)
Definition load_point (input_points : PointSet) (it : nat * Json.value)
  : Py.res PointSet :=
  let '(point_id, point) := it in
  let* position := Json.getitem_key point "position" in
  let* p := point_of_json position in
  Py.Ok (InsertPoint input_points point_id p).

Definition load_points (points_markup : Json.value) : Py.res PointSet :=
  let* markups := Json.getitem_key points_markup "markups" in
  let* markup0 := Json.getitem_idx markups 0 in
  let* controlPoints := Json.getitem_key markup0 "controlPoints" in
  let* items := Json.iter controlPoints in
  Py.for_each load_point (Py.enumerate items) New.

(** The point a control point contributes: its [position], converted. *)
Definition position_of (cp : Json.value) : Py.res Point :=
  let* position := Json.getitem_key cp "position" in
  point_of_json position.

(** Cell 6: the initial transform as the notebook prints it after
    [itk.transformread(ITK_TRANSFORM_FILENAME)[0]]: identity matrix,
    centre [6.6384, 9.2016, 4.176], translation
    [-12.3259, -2.6141, -8.1635]. *)
Definition init_transform : VersorRigid3DTransform :=
  mkVersorRigid identity3
    (mkPoint (66384 # 10000) (92016 # 10000) (4176 # 1000))
    (mkPoint (- (123259 # 10000)) (- (26141 # 10000)) (- (81635 # 10000))).

(** Cell 7, "Apply Initial Transform":
<<
init_points = itk.PointSet[itk.F, 3].New()
for idx in range(input_points.GetNumberOfPoints()):
    point = input_points.GetPoint(idx)
    init_points.GetPoints().InsertElement(
        idx, init_transform.TransformPoint(point)
    )
>> *)
Definition apply_init_step (t : VersorRigid3DTransform) (input_points : PointSet)
  (init_points : PointSet) (idx : nat) : Py.res PointSet :=
  let* point := GetPoint input_points idx in
  Py.Ok (InsertPoint init_points idx (TransformPoint t point)).

Definition apply_init_transform (t : VersorRigid3DTransform)
  (input_points : PointSet) : Py.res PointSet :=
  Py.for_each (apply_init_step t input_points)
    (Py.range (GetNumberOfPoints input_points)) New.

Section Transformix.

(** How Python prints a [float] inside an f-string. *)
Variable float_repr : Q -> string.

(** Cell 8: the table handed to transformix.
<<
with open(TRANSFORMIX_POINTSET_FILE, "w") as f:
    f.write("point\n")
    f.write(f"{init_points.GetNumberOfPoints()}\n")
    for idx in range(init_points.GetNumberOfPoints()):
        point = init_points.GetPoint(idx)
        f.write(f"{point[0]} {point[1]} {point[2]}\n")
>>
    The file is the text written so far; [write] appends to it. *)
Definition write (f : string) (text : string) : string := f ++ text.

Definition point_line (point : Point) : string :=
  float_repr (px point) ++ " " ++ float_repr (py point) ++ " "
  ++ float_repr (pz point).

Definition write_point (init_points : PointSet) (f : string) (idx : nat)
  : Py.res string :=
  let* point := GetPoint init_points idx in
  Py.Ok (write f (point_line point ++ Py.nl)).

Definition write_point_table (init_points : PointSet) : Py.res string :=
  let f := EmptyString in
  let f := write f ("point" ++ Py.nl) in
  let f := write f (Py.str_of_nat (GetNumberOfPoints init_points) ++ Py.nl) in
  Py.for_each (write_point init_points)
    (Py.range (GetNumberOfPoints init_points)) f.

(** The text of the point lines of a table, each with its line break. *)
Fixpoint table_text (ps : PointSet) : string :=
  match ps with
  | [] => EmptyString
  | p :: rest => point_line p ++ Py.nl ++ table_text rest
  end.

(** The coordinates of a point print without a line break. *)
Definition printable (p : Point) : bool :=
  Py.single_line (float_repr (px p)) && Py.single_line (float_repr (py p))
  && Py.single_line (float_repr (pz p)).

(** Cell 9: the parameter chain.
<<
toplevel_param = itk.ParameterObject.New()
param = itk.ParameterObject.New()
for elastix_transform_filename in ELASTIX_TRANSFORM_FILENAMES:
    param.ReadParameterFile(elastix_transform_filename)
    toplevel_param.AddParameterMap(param.GetParameterMap(0))
>>
    An [elastix::ParameterObject] holds a vector of parameter maps.
    [ReadParameterFile] replaces the vector by the one map parsed from the
    file, [GetParameterMap(i)] reads slot [i], [AddParameterMap] pushes a copy
    at the back.  The content of the stage files is the function
    [parse_parameter_file]. *)
Variable ParameterMap : Type.
Variable parse_parameter_file : string -> Py.res ParameterMap.

Definition ParameterObject : Type := list ParameterMap.

Definition ReadParameterFile (self : ParameterObject) (filename : string)
  : Py.res ParameterObject :=
  let* m := parse_parameter_file filename in Py.Ok [m].

Definition GetParameterMap (self : ParameterObject) (i : nat)
  : Py.res ParameterMap :=
  match self !! i with
  | Some m => Py.Ok m
  | None => Py.Raise Py.IndexError
  end.

Definition AddParameterMap (self : ParameterObject) (m : ParameterMap)
  : ParameterObject := (self ++ [m])%list.

Definition add_stage (st : ParameterObject * ParameterObject)
  (elastix_transform_filename : string)
  : Py.res (ParameterObject * ParameterObject) :=
  let '(toplevel_param, param) := st in
  let* param := ReadParameterFile param elastix_transform_filename in
  let* m := GetParameterMap param 0 in
  Py.Ok (AddParameterMap toplevel_param m, param).

Definition build_parameter_chain (filenames : list string)
  : Py.res ParameterObject :=
  let* st := Py.for_each add_stage filenames ([], []) in
  Py.Ok (fst st).

(** Cell 11:
<<
result_point_set = itk.transformix_pointset(
    target_image, toplevel_param, fixed_point_set_file_name=...,
    output_directory=TRANSFORMIX_OUTPUT_DIR)
>>
    The engine evaluates the chain on the table and writes
    [outputpoints.txt]; the call returns that file as
    [numpy.loadtxt(..., dtype=str)] reads it.  What the engine writes is not
    the notebook's business: [engine_rows] stands for the rows of
    whitespace-separated fields of its file, blank lines left out. *)
Definition Row : Type := list string.

Variable engine_rows : ParameterObject -> string -> list Row.

(** An array of strings of dimension 0, 1 or 2. *)
Inductive ndarray_str : Type :=
| Item (s : string)
| Fields (fields : list string)
| Rows (rows : list Row).

(** Every row has [n] fields. *)
Definition columns (n : nat) (rows : list Row) : bool :=
  forallb (fun row => (length row =? n)%nat) rows.

(** [numpy.loadtxt] with its default [ndmin=0]: rows of unequal length are
    refused, and axes of length one are squeezed away, so that a file of
    one row comes back as the one-dimensional array of its fields. *)
Definition loadtxt (rows : list Row) : Py.res ndarray_str :=
  match rows with
  | [] => Py.Ok (Fields [])
  | first :: _ =>
      if columns (length first) rows then
        match rows, first with
        | [_], [x] => Py.Ok (Item x)
        | [_], _ => Py.Ok (Fields first)
        | _, [_] => Py.Ok (Fields (concat rows))
        | _, _ => Py.Ok (Rows rows)
        end
      else Py.Raise Py.ValueError
  end.

Definition transformix_pointset (toplevel_param : ParameterObject)
  (point_file : string) : Py.res ndarray_str :=
  loadtxt (engine_rows toplevel_param point_file).

(** [len(a)] and what [for x in a] runs over: the first axis. *)
Definition len (a : ndarray_str) : Py.res nat :=
  match a with
  | Item _ => Py.Raise Py.TypeError
  | Fields fields => Py.Ok (length fields)
  | Rows rows => Py.Ok (length rows)
  end.

End Transformix.

(** Cell 12: what is printed for each row of the result.
<<
f"{output_point[11:18]} -> {output_point[27:35]}"
>> *)
Definition input_fields {A : Type} (output_point : list A) : list A :=
  Py.slice 11 18 output_point.

Definition output_fields {A : Type} (output_point : list A) : list A :=
  Py.slice 27 35 output_point.

End PointNotebook.

(** ** ITK: image information and [itk.OrientImageFilter] *)

Module ItkImage.

Import Itk.

(** The three image axes. *)
Inductive Dim : Type := D0 | D1 | D2.

Record V3 (A : Type) : Type := mkV3 { v0 : A; v1 : A; v2 : A }.

Arguments mkV3 {A} _ _ _.
Arguments v0 {A} _.
Arguments v1 {A} _.
Arguments v2 {A} _.

Definition vget {A : Type} (v : V3 A) (i : Dim) : A :=
  match i with D0 => v0 v | D1 => v1 v | D2 => v2 v end.

Definition vbuild {A : Type} (f : Dim -> A) : V3 A :=
  mkV3 (f D0) (f D1) (f D2).

Definition col (m : Matrix3) (j : Dim) : Point :=
  match j with
  | D0 => mkPoint (m00 m) (m10 m) (m20 m)
  | D1 => mkPoint (m01 m) (m11 m) (m21 m)
  | D2 => mkPoint (m02 m) (m12 m) (m22 m)
  end.

Definition of_cols (c : Dim -> Point) : Matrix3 :=
  mkMatrix3 (px (c D0)) (px (c D1)) (px (c D2))
            (py (c D0)) (py (c D1)) (py (c D2))
            (pz (c D0)) (pz (c D1)) (pz (c D2)).

Definition scale (k : Q) (p : Point) : Point :=
  mkPoint (k * px p) (k * py p) (k * pz p).

Definition add (p q : Point) : Point :=
  mkPoint (px p + px q) (py p + py q) (pz p + pz q).

(** A direction column with its sign. *)
Definition signed (flip : bool) (p : Point) : Point :=
  if flip then scale (-1) p else p.

(** [SpatialOrientationEnums::CoordinateTerms] with ITK's numeric values:
    bits 1..3 name the anatomical axis, bit 0 the sense along it. *)
Inductive CoordinateTerms : Type :=
| Right | Left | Posterior | Anterior | Inferior | Superior.

Definition term_code (t : CoordinateTerms) : Z :=
  match t with
  | Right => 2 | Left => 3
  | Posterior => 4 | Anterior => 5
  | Inferior => 8 | Superior => 9
  end.

(** [CoordinateMajornessTerms]: the shift of each image axis in the code. *)
Definition PrimaryMinor : Z := 0.
Definition SecondaryMinor : Z := 8.
Definition TertiaryMinor : Z := 16.

Definition orientation_code (p s t : CoordinateTerms) : Z :=
  Z.shiftl (term_code p) PrimaryMinor
  + Z.shiftl (term_code s) SecondaryMinor
  + Z.shiftl (term_code t) TertiaryMinor.

(** [SpatialOrientationEnums::ValidCoordinateOrientations]: the closed
    enumeration of the 48 orientation codes. *)
Inductive ValidCoordinateOrientations : Type :=
| RIP | LIP | RSP | LSP | RIA | LIA | RSA | LSA
| IRP | ILP | SRP | SLP | IRA | ILA | SRA | SLA
| RPI | LPI | RAI | LAI | RPS | LPS | RAS | LAS
| PRI | PLI | ARI | ALI | PRS | PLS | ARS | ALS
| IPR | SPR | IAR | SAR | IPL | SPL | IAL | SAL
| PIR | PSR | AIR | ASR | PIL | PSL | AIL | ASL.

Definition code_value (o : ValidCoordinateOrientations) : Z :=
  match o with
  | RIP => orientation_code Right Inferior Posterior
  | LIP => orientation_code Left Inferior Posterior
  | RSP => orientation_code Right Superior Posterior
  | LSP => orientation_code Left Superior Posterior
  | RIA => orientation_code Right Inferior Anterior
  | LIA => orientation_code Left Inferior Anterior
  | RSA => orientation_code Right Superior Anterior
  | LSA => orientation_code Left Superior Anterior
  | IRP => orientation_code Inferior Right Posterior
  | ILP => orientation_code Inferior Left Posterior
  | SRP => orientation_code Superior Right Posterior
  | SLP => orientation_code Superior Left Posterior
  | IRA => orientation_code Inferior Right Anterior
  | ILA => orientation_code Inferior Left Anterior
  | SRA => orientation_code Superior Right Anterior
  | SLA => orientation_code Superior Left Anterior
  | RPI => orientation_code Right Posterior Inferior
  | LPI => orientation_code Left Posterior Inferior
  | RAI => orientation_code Right Anterior Inferior
  | LAI => orientation_code Left Anterior Inferior
  | RPS => orientation_code Right Posterior Superior
  | LPS => orientation_code Left Posterior Superior
  | RAS => orientation_code Right Anterior Superior
  | LAS => orientation_code Left Anterior Superior
  | PRI => orientation_code Posterior Right Inferior
  | PLI => orientation_code Posterior Left Inferior
  | ARI => orientation_code Anterior Right Inferior
  | ALI => orientation_code Anterior Left Inferior
  | PRS => orientation_code Posterior Right Superior
  | PLS => orientation_code Posterior Left Superior
  | ARS => orientation_code Anterior Right Superior
  | ALS => orientation_code Anterior Left Superior
  | IPR => orientation_code Inferior Posterior Right
  | SPR => orientation_code Superior Posterior Right
  | IAR => orientation_code Inferior Anterior Right
  | SAR => orientation_code Superior Anterior Right
  | IPL => orientation_code Inferior Posterior Left
  | SPL => orientation_code Superior Posterior Left
  | IAL => orientation_code Inferior Anterior Left
  | SAL => orientation_code Superior Anterior Left
  | PIR => orientation_code Posterior Inferior Right
  | PSR => orientation_code Posterior Superior Right
  | AIR => orientation_code Anterior Inferior Right
  | ASR => orientation_code Anterior Superior Right
  | PIL => orientation_code Posterior Inferior Left
  | PSL => orientation_code Posterior Superior Left
  | AIL => orientation_code Anterior Inferior Left
  | ASL => orientation_code Anterior Superior Left
  end.

(** [OrientImageFilter::DeterminePermutationsAndFlips]: the 4-bit field of
    each axis is cut out of the code; [PermuteOrder[i]] is the axis of the
    given image that runs along the anatomical axis wanted at output axis
    [i]; output axis [i] is flipped when the two senses differ. *)
Definition CodeField : Z := 15.
Definition CodeAxisField : Z := 14.
Definition CodeAxisIncreasingField : Z := 1.

Definition majorness (i : Dim) : Z :=
  match i with
  | D0 => PrimaryMinor
  | D1 => SecondaryMinor
  | D2 => TertiaryMinor
  end.

Definition axis_code (orient : Z) (i : Dim) : Z :=
  Z.land (Z.shiftr orient (majorness i)) CodeField.

Definition same_axis (a b : Z) : bool :=
  Z.eqb (Z.land a CodeAxisField) (Z.land b CodeAxisField).

Definition PermuteOrder (fixed_orient moving_orient : Z) (i : Dim) : Dim :=
  let want := axis_code fixed_orient i in
  if same_axis (axis_code moving_orient D0) want then D0
  else if same_axis (axis_code moving_orient D1) want then D1
  else if same_axis (axis_code moving_orient D2) want then D2
  else i.

Definition FlipAxes (fixed_orient moving_orient : Z) (i : Dim) : bool :=
  let j := PermuteOrder fixed_orient moving_orient i in
  negb (Z.eqb (Z.land (axis_code moving_orient j) CodeAxisIncreasingField)
              (Z.land (axis_code fixed_orient i) CodeAxisIncreasingField)).

(** What [itk::ImageBase::CopyInformation] copies. *)
Record Information : Type := mkInformation {
  LargestPossibleRegion : V3 nat;
  Spacing : V3 Q;
  Origin : Point;
  Direction : Matrix3 }.

(** An [itk.Image[itk.F, 3]]: its information, and the pixel container with
    the size of the buffered region. *)
Record Image : Type := mkImage {
  Info : Information;
  BufferedRegion : V3 nat;
  PixelContainer : list Q }.

(** [PermuteAxesImageFilter::GenerateOutputInformation]: spacing, size and
    the columns of the direction follow the order; the origin stays. *)
Definition permute_information (order : Dim -> Dim) (i : Information)
  : Information :=
  mkInformation
    (vbuild (fun j => vget (LargestPossibleRegion i) (order j)))
    (vbuild (fun j => vget (Spacing i) (order j)))
    (Origin i)
    (of_cols (fun j => col (Direction i) (order j))).

(** [FlipImageFilter::GenerateOutputInformation] with [FlipAboutOriginOff]:
    the new origin is the physical position of the last pixel along each
    flipped axis, and the direction column of a flipped axis is negated. *)
Definition flip_step (flip : Dim -> bool) (i : Information) (j : Dim) : Point :=
  if flip j
  then scale (vget (Spacing i) j
              * inject_Z (Z.of_nat (vget (LargestPossibleRegion i) j - 1)))
             (col (Direction i) j)
  else origin_point.

Definition flip_information (flip : Dim -> bool) (i : Information)
  : Information :=
  mkInformation
    (LargestPossibleRegion i)
    (Spacing i)
    (add (add (add (Origin i) (flip_step flip i D0)) (flip_step flip i D1))
         (flip_step flip i D2))
    (of_cols (fun j => if flip j then scale (-1) (col (Direction i) j)
                       else col (Direction i) j)).

(** [OrientImageFilter] after [UpdateOutputInformation()]: the information
    of [GetOutput()]. *)
Definition orient_output_information
  (given desired : ValidCoordinateOrientations) (i : Information)
  : Information :=
  let fixed_orient := code_value desired in
  let moving_orient := code_value given in
  flip_information (FlipAxes fixed_orient moving_orient)
    (permute_information (PermuteOrder fixed_orient moving_orient) i).

Definition CopyInformation (self : Image) (data : Information) : Image :=
  mkImage data (BufferedRegion self) (PixelContainer self).

Definition SetSpacing (self : Image) (spacing : V3 Q) : Image :=
  mkImage
    (mkInformation (LargestPossibleRegion (Info self)) spacing
       (Origin (Info self)) (Direction (Info self)))
    (BufferedRegion self) (PixelContainer self).

Definition GetNumberOfPixels (size : V3 nat) : nat :=
  (v0 size * v1 size * v2 size)%nat.

(** [itk::ImageBase::UpdateOutputInformation] on an image that no filter
    produces, as a filter calls it on its input: the image is made to span
    its buffer, that is, its largest possible region is set to the buffered
    region; when the buffer holds no pixel the region is left as it is. *)
Definition UpdateOutputInformation (self : Image) : Image :=
  if (0 <? GetNumberOfPixels (BufferedRegion self))%nat
  then mkImage
         (mkInformation (BufferedRegion self) (Spacing (Info self))
            (Origin (Info self)) (Direction (Info self)))
         (BufferedRegion self) (PixelContainer self)
  else self.

End ItkImage.

(** ** numpy arrays *)

Module Np.

(** A dense array in C order: its shape and its elements. *)
Record ndarray (A : Type) : Type := mkArray {
  shape : list nat;
  data : list A }.

Arguments mkArray {A} _ _.
Arguments shape {A} _.
Arguments data {A} _.

(** [np.squeeze]: axes of length one are dropped, the elements stay. *)
Definition squeeze {A : Type} (a : ndarray A) : ndarray A :=
  mkArray (List.filter (fun n => negb (Nat.eqb n 1)) (shape a)) (data a).

(** [a.astype(dtype)]: the elements are converted one by one. *)
Definition astype {A B : Type} (conv : A -> B) (a : ndarray A) : ndarray B :=
  mkArray (shape a) (map conv (data a)).

(** The conversion of an unsigned 16-bit voxel to [np.float32] is exact. *)
Definition float32_of_uint16 (v : Z) : Q := inject_Z v.

End Np.

(** ** zarr: the store cache and the group lookup *)

Module Zarr.

(** A stored object: the encoded bytes are represented by their length
    ([buffer_size]) and by the values they decode to. *)
Record Value : Type := mkValue {
  nbytes : N;
  decoded : list Z }.

Definition buffer_size (v : Value) : Z := Z.of_N (nbytes v).

Definition Store : Type := list (string * Value).

Fixpoint lookup (key : string) (d : list (string * Value)) : option Value :=
  match d with
  | [] => None
  | (k, v) :: rest => if String.eqb key k then Some v else lookup key rest
  end.

Definition keys (d : list (string * Value)) : list string := map fst d.

Definition contains_key (key : string) (ks : list string) : bool :=
  existsb (String.eqb key) ks.

Definition remove_key (key : string) (d : list (string * Value))
  : list (string * Value) :=
  List.filter (fun kv => negb (String.eqb key (fst kv))) d.

(** [zarr.LRUStoreCache]: [values_cache] is the [OrderedDict] of cached
    values, least recently used first. *)
Record LRUStoreCache : Type := mkCache {
  store : Store;
  max_size : Z;
  current_size : Z;
  contains_cache : option (list string);
  values_cache : list (string * Value);
  hits : nat;
  misses : nat }.

(** [zarr.LRUStoreCache(store, max_size=...)]. *)
Definition New (s : Store) (max : Z) : LRUStoreCache :=
  mkCache s max 0 None [] 0 0.

(** [__contains__]: the key listing of the store is fetched once and kept. *)
Definition contains (self : LRUStoreCache) (key : string)
  : bool * LRUStoreCache :=
  match contains_cache self with
  | Some ks => (contains_key key ks, self)
  | None =>
      let ks := keys (store self) in
      (contains_key key ks,
       mkCache (store self) (max_size self) (current_size self) (Some ks)
         (values_cache self) (hits self) (misses self))
  end.

(** [_accommodate_value]:
<<
while self._current_size + value_size > self._max_size:
    v = self._pop_value()
    self._current_size -= buffer_size(v)
>>
    [_pop_value] pops the first item of the ordered dictionary and raises
    [KeyError] on an empty one. *)
Fixpoint accommodate_value (max value_size : Z)
  (values : list (string * Value)) (current : Z)
  : Py.res unit * (list (string * Value) * Z) :=
  if (current + value_size >? max)%Z then
    match values with
    | [] => (Py.Raise Py.KeyError, ([], current))
    | (_, v) :: rest =>
        accommodate_value max value_size rest (current - buffer_size v)%Z
    end
  else (Py.Ok tt, (values, current)).

(** [_cache_value]: a value larger than the whole cache is never cached. *)
Definition cache_value (self : LRUStoreCache) (key : string) (value : Value)
  : Py.res unit * LRUStoreCache :=
  let value_size := buffer_size value in
  if (value_size <=? max_size self)%Z then
    let '(r, (values, current)) :=
      accommodate_value (max_size self) value_size (values_cache self)
        (current_size self) in
    match r with
    | Py.Ok _ =>
        (Py.Ok tt,
         mkCache (store self) (max_size self) (current + value_size)%Z
           (contains_cache self) (values ++ [(key, value)])
           (hits self) (misses self))
    | Py.Raise e =>
        (Py.Raise e,
         mkCache (store self) (max_size self) current
           (contains_cache self) values (hits self) (misses self))
    end
  else (Py.Ok tt, self).

(** [__getitem__]: a hit moves the key to the most recently used end; a miss
    reads the store (a missing key raises before anything is changed) and
    caches the value. *)
Definition getitem (self : LRUStoreCache) (key : string)
  : Py.res Value * LRUStoreCache :=
  match lookup key (values_cache self) with
  | Some value =>
      (Py.Ok value,
       mkCache (store self) (max_size self) (current_size self)
         (contains_cache self)
         (remove_key key (values_cache self) ++ [(key, value)])
         (S (hits self)) (misses self))
  | None =>
      match lookup key (store self) with
      | None => (Py.Raise Py.KeyError, self)
      | Some value =>
          let self1 :=
            mkCache (store self) (max_size self) (current_size self)
              (contains_cache self) (values_cache self)
              (hits self) (S (misses self)) in
          let '(r, self2) := cache_value self1 key value in
          match r with
          | Py.Ok _ => (Py.Ok value, self2)
          | Py.Raise e => (Py.Raise e, self2)
          end
      end
  end.

(** [str(item)] for an integer member name, and the integer a decimal
    string denotes. *)
Definition str_of_Z (i : Z) : string := NilZero.string_of_int (Z.to_int i).

Definition Z_of_str (s : string) : option Z :=
  option_map Z.of_int (NilZero.int_of_string s).

Definition array_meta_key : string := ".zarray".
Definition group_meta_key : string := ".zgroup".

(** A [zarr.Array] opened on a path of the store, with its metadata
    object. *)
Record Array : Type := mkZArray {
  array_path : string;
  array_meta : Value }.

(** A [zarr.Group] opened on a path of the store, likewise. *)
Record Group : Type := mkZGroup {
  group_path : string;
  group_meta : Value }.

(** A member of a group. *)
Inductive Member : Type :=
| IsArray (a : Array)
| IsGroup (g : Group).

(** [Group.__getitem__(item)] on the root group:
<<
path = self._item_path(item)
if contains_array(self._store, path):
    return Array(self._store, path=path, ...)
elif contains_group(self._store, path, explicit_only=True):
    return Group(self._store, path=path, ...)
else:
    raise KeyError(item)
>>
    Opening an array, or a group, loads its metadata object through the
    store. *)
Definition Group_getitem (self : LRUStoreCache) (item : Z)
  : Py.res Member * LRUStoreCache :=
  let path := str_of_Z item in
  let '(is_array, self1) := contains self (path ++ "/" ++ array_meta_key) in
  if is_array then
    let '(r, self2) := getitem self1 (path ++ "/" ++ array_meta_key) in
    match r with
    | Py.Ok meta => (Py.Ok (IsArray (mkZArray path meta)), self2)
    | Py.Raise e => (Py.Raise e, self2)
    end
  else
    let '(is_group, self2) := contains self1 (path ++ "/" ++ group_meta_key) in
    if is_group then
      let '(r, self3) := getitem self2 (path ++ "/" ++ group_meta_key) in
      match r with
      | Py.Ok meta => (Py.Ok (IsGroup (mkZGroup path meta)), self3)
      | Py.Raise e => (Py.Raise e, self3)
      end
    else (Py.Raise Py.KeyError, self2).

(** The bytes held by the cached values. *)
Fixpoint total_size (d : list (string * Value)) : Z :=
  match d with
  | [] => 0
  | (_, v) :: rest => buffer_size v + total_size rest
  end.

(** The bookkeeping of the cache is sound: the recorded size is the size of
    what is cached, it fits the cache, and no key is cached twice. *)
Definition cache_ok (c : LRUStoreCache) : Prop :=
  current_size c = total_size (values_cache c)
  /\ (current_size c <= max_size c)%Z
  /\ NoDup (keys (values_cache c)).

(** A run of the accessor: the keys read through the cache, one after the
    other; a read that raises does not stop the later ones. *)
Definition run (self : LRUStoreCache) (reads : list string) : LRUStoreCache :=
  fold_left (fun c key => snd (getitem c key)) reads self.

End Zarr.

(** ** [LocalFetchFromS3.ipynb] *)

Module FetchNotebook.

Import Itk ItkImage.

(** Cell 10: [cache = zarr.LRUStoreCache(store, max_size=2**28)] and
    [root = zarr.group(store=cache)], which looks the root group up (filling
    the key listing of the cache) and reads its metadata object. *)
Definition MAX_SIZE : Z := 2 ^ 28.

Definition open_root (s : Zarr.Store) : Zarr.LRUStoreCache :=
  let cache := Zarr.New s MAX_SIZE in
  let '(_, cache) := Zarr.contains cache Zarr.group_meta_key in
  snd (Zarr.getitem cache Zarr.group_meta_key).

(** Cell 11: [root[4]]; the level is a constant of the notebook. *)
Definition get_level (root : Zarr.LRUStoreCache) (i : Z)
  : Py.res Zarr.Member * Zarr.LRUStoreCache :=
  Zarr.Group_getitem root i.

Definition LEVEL : Z := 4.

(** The members of the root group named by an integer: an array or a
    sub-group at that path. *)
Definition has_array (s : Zarr.Store) (i : Z) : bool :=
  Zarr.contains_key (Zarr.str_of_Z i ++ "/" ++ Zarr.array_meta_key)
    (Zarr.keys s).

Definition has_member (s : Zarr.Store) (i : Z) : bool :=
  has_array s i
  || Zarr.contains_key (Zarr.str_of_Z i ++ "/" ++ Zarr.group_meta_key)
       (Zarr.keys s).

(** The store holds a pyramid of [numLevels] levels: the arrays [0] to
    [numLevels - 1], and no other numbered member. *)
Definition pyramid_levels (s : Zarr.Store) (numLevels : Z) : Prop :=
  (forall i : Z, (0 <= i < numLevels)%Z -> has_array s i = true)
  /\ (forall i : Z, has_member s i = true -> (0 <= i < numLevels)%Z).

(** [itk.image_view_from_array]: the image shares the elements of the array;
    its size is the shape read backwards, its spacing is one, its origin zero
    and its direction the identity.  [Image] is the three-dimensional image
    the notebook goes on with: an array of another dimension has no image of
    this type, and the notebook's next call, [SetSpacing] with three values,
    cannot succeed on what ITK makes of it; that failure is placed here. *)
Definition image_view_from_array (a : Np.ndarray Q) : Py.res Image :=
  match Np.shape a with
  | [nz; ny; nx] =>
      let size := mkV3 nx ny nz in
      Py.Ok (mkImage
               (mkInformation size (mkV3 1%Q 1%Q 1%Q) origin_point identity3)
               size (Np.data a))
  | _ => Py.Raise Py.TypeError
  end.

(** Cell 12:
<<
axis_spacings = {'x': 0.028800000000000003, 'y': 0.028800000000000003, 'z': 0.032}
itk_spatial_axes = ("x", "y", "z")
itk_image.SetSpacing([axis_spacings[axis_name] for axis_name in itk_spatial_axes])
>> *)
Definition axis_spacings : V3 Q :=
  mkV3 (28800000000000003 # 1000000000000000000)
       (28800000000000003 # 1000000000000000000)
       (32 # 1000).

Definition INPUT_COORDINATE_ORIENTATION : ValidCoordinateOrientations := RAI.
Definition DESIRED_COORDINATE_ORIENTATION : ValidCoordinateOrientations := LPS.

(** Cell 12, second half:
<<
orient_filter = itk.OrientImageFilter.New(itk_image)
orient_filter.SetGivenCoordinateOrientation(INPUT_COORDINATE_ORIENTATION)
orient_filter.SetDesiredCoordinateOrientation(...ORIENTATION_LPS)
orient_filter.UpdateOutputInformation()
itk_image.CopyInformation(orient_filter.GetOutput())
>>
    Updating the information of the filter first updates that of its input,
    the image itself. *)
Definition reconcile (given desired : ValidCoordinateOrientations)
  (itk_image : Image) : Image :=
  let itk_image := UpdateOutputInformation itk_image in
  CopyInformation itk_image
    (orient_output_information given desired (Info itk_image)).

(** Cells 11 to 13, from the fetched level to the image handed to
    [itk.imwrite]. *)
Definition image_to_write (fetched : Np.ndarray Z) : Py.res Image :=
  let voxel_array := Np.squeeze fetched in
  let* itk_image :=
    image_view_from_array (Np.astype Np.float32_of_uint16 voxel_array) in
  let itk_image := SetSpacing itk_image axis_spacings in
  Py.Ok (reconcile INPUT_COORDINATE_ORIENTATION
           DESIRED_COORDINATE_ORIENTATION itk_image).

End FetchNotebook.

(** ** Reading a result row by label, and sample data *)

Module Samples.

Import Itk.

Definition is_space (c : ascii) : bool :=
  Ascii.eqb c " "%char || Ascii.eqb c "009"%char || Ascii.eqb c Py.newline.

(** The whitespace-separated fields of a line, as [np.loadtxt(dtype=str)]
    cuts them: runs of blanks separate fields and none is empty. *)
Fixpoint fields_aux (s : string) : string * list string :=
  match s with
  | EmptyString => (EmptyString, [])
  | String c s' =>
      let '(tok, rest) := fields_aux s' in
      if is_space c
      then (EmptyString, if String.eqb tok EmptyString then rest else tok :: rest)
      else (String c tok, rest)
  end.

Definition fields (s : string) : list string :=
  let '(tok, rest) := fields_aux s in
  if String.eqb tok EmptyString then rest else tok :: rest.

(** Extraction by label, following the specification's wording: find the
    field that is the label and read the bracketed triple that follows it,
    [label = [ x y z ]]. *)
Fixpoint labeled_group (label : string) (row : list string)
  : option (list string) :=
  match row with
  | [] => None
  | f :: rest =>
      if String.eqb f label then
        match rest with
        | eq :: lb :: x :: y :: z :: rb :: _ =>
            if String.eqb eq "=" && String.eqb lb "[" && String.eqb rb "]"
            then Some [x; y; z] else None
        | _ => None
        end
      else labeled_group label rest
  end.

(** A line in the layout of transformix's [outputpoints.txt]. *)
Definition transformix_line : string :=
  "Point 0 ; InputIndex = [ 294 242 81 ] ; InputPoint = [ -3.86233 6.9475 -2.55092 ] ; OutputIndexFixed = [ 301 239 85 ] ; OutputPoint = [ -3.70114 6.88021 -2.45519 ] ; Deformation = [ 0.16119 -0.06729 0.09573 ]".

(** A line with the same two labeled groups and nothing else. *)
Definition short_line : string :=
  "Point 0 ; InputPoint = [ 1.5 2.5 3.5 ] ; OutputPoint = [ 4.5 5.5 6.5 ]".

(** A stand-in for Python's [float] formatting: five decimals, truncated. *)
Fixpoint zeros (n : nat) : string :=
  match n with
  | O => EmptyString
  | S n' => String "0" (zeros n')
  end.

Definition pad5 (n : nat) : string :=
  let s := Py.str_of_nat n in zeros (5 - String.length s) ++ s.

Definition fixed5 (q : Q) : string :=
  let n := Z.quot (Qnum q * 100000) (Zpos (Qden q)) in
  let a := Z.abs n in
  (if (n <? 0)%Z then "-" else EmptyString)
  ++ Py.str_of_nat (Z.to_nat (a / 100000)) ++ "."
  ++ pad5 (Z.to_nat (a mod 100000)).

(** The first control points of the notebook's markup, in a document with a
    second markup group. *)
Definition control_point (label : string) (x y z : Q) : Json.value :=
  Json.JObj [("label", Json.JStr label);
             ("position", Json.JArr [Json.JNum x; Json.JNum y; Json.JNum z])].

Definition two_group_markup : Json.value :=
  Json.JObj
    [("@schema", Json.JStr "markups-schema-v1.0.3");
     ("markups",
      Json.JArr
        [Json.JObj
           [("type", Json.JStr "Fiducial");
            ("controlPoints",
             Json.JArr
               [control_point "F-1" (846357 # 100000) (95616 # 10000)
                  (561258 # 100000);
                control_point "F-2" (942914 # 100000) (95616 # 10000)
                  (532998 # 100000)])];
         Json.JObj
           [("type", Json.JStr "Fiducial");
            ("controlPoints",
             Json.JArr [control_point "G-1" (1 # 1) (2 # 1) (3 # 1)])]])].

Definition two_points : PointSet :=
  [mkPoint (846357 # 100000) (95616 # 10000) (561258 # 100000);
   mkPoint (942914 # 100000) (95616 # 10000) (532998 # 100000)].

(** Stage files on a toy file system: the parameter map of a file is its
    stage number. *)
Definition toy_parse (filename : string) : Py.res nat :=
  if String.eqb filename "../data/demo_registration_results_631680/elastix-transform0.txt"
  then Py.Ok 0%nat
  else if String.eqb filename "../data/demo_registration_results_631680/elastix-transform1.txt"
  then Py.Ok 1%nat
  else if String.eqb filename "../data/demo_registration_results_631680/elastix-transform2.txt"
  then Py.Ok 2%nat
  else Py.Raise Py.RuntimeError.

(** A stand-in for the engine, with no deformation: for every point line of
    the table, the row of fifty fields that transformix writes, with the
    coordinates of the line under [InputPoint] and [OutputPoint]. *)
Definition group (label : string) (xyz : list string) : list string :=
  ([";"; label; "="; "["] ++ xyz ++ ["]"])%list.

Definition undeformed_row (it : nat * string) : list string :=
  let '(i, line) := it in
  let xyz := fields line in
  let index := ["0"; "0"; "0"] in
  (["Point"; Py.str_of_nat i]
   ++ group "InputIndex" index ++ group "InputPoint" xyz
   ++ group "OutputIndexFixed" index ++ group "OutputPoint" xyz
   ++ group "Deformation" ["0.00000"; "0.00000"; "0.00000"]
   ++ group "OutputIndexMoving" index)%list.

Definition undeformed_rows (chain : list nat) (point_file : string)
  : list (list string) :=
  map undeformed_row (Py.enumerate (drop 2 (Py.splitlines point_file))).

(** The store of the notebook's channel: the members listed in cell 8 and by
    [root.info], with two chunks of level 4 that together exceed the cache. *)
Definition meta (n : N) : Zarr.Value := Zarr.mkValue n [].

Definition chunk_a : string := "4/0/0/0/0/0".
Definition chunk_b : string := "4/0/0/0/0/1".

(** A fetched level with two singleton axes, as [root[4]] has them. *)
Definition small_level : Np.ndarray Z :=
  Np.mkArray [1; 1; 2; 2; 3]%nat [11; 12; 13; 14; 15; 16; 17; 18; 19; 20; 21; 22]%Z.

(** The image of cell 11 for level 4, before its information is set. *)
Definition level4_view : ItkImage.Image :=
  ItkImage.mkImage
    (ItkImage.mkInformation (ItkImage.mkV3 462 640 262)%nat
       (ItkImage.mkV3 1%Q 1%Q 1%Q) origin_point identity3)
    (ItkImage.mkV3 462 640 262)%nat [].

Definition channel_store : Zarr.Store :=
  [(".zattrs", meta 2378); (".zgroup", meta 24);
   ("0/.zarray", meta 400); ("1/.zarray", meta 400); ("2/.zarray", meta 400);
   ("3/.zarray", meta 400); ("4/.zarray", meta 400);
   (chunk_a, Zarr.mkValue (2 ^ 27 + 1) [7; 8]%Z);
   (chunk_b, Zarr.mkValue (2 ^ 27 + 1) [9; 10]%Z)].

End Samples.

(** ** Coordinates up to the equality of rationals, and further sample data *)

Module Cases.

Import Itk.

(** Two points with equal coordinates. *)
Definition point_eq (p q : Point) : Prop :=
  (px p == px q /\ py p == py q /\ pz p == pz q)%Q.

(** A markup whose second control point has no [position]. *)
Definition markup_without_position : Json.value :=
  Json.JObj
    [("markups",
      Json.JArr
        [Json.JObj
           [("controlPoints",
             Json.JArr
               [Samples.control_point "F-1" (1 # 1) (2 # 1) (3 # 1);
                Json.JObj [("label", Json.JStr "F-2")];
                Samples.control_point "F-3" (4 # 1) (5 # 1) (6 # 1)])]])].

(** Stage files of which the second one is missing. *)
Definition files_with_missing_stage : list string :=
  ["../data/demo_registration_results_631680/elastix-transform0.txt";
   "../data/demo_registration_results_631680/elastix-transform7.txt";
   "../data/demo_registration_results_631680/elastix-transform2.txt"].

End Cases.

(** ** Cache states after one more hit or miss *)

Module CacheStates.

Import Zarr.

(** The cached values are values of the store. *)
Definition agrees (c : LRUStoreCache) : Prop :=
  forall (key : string) (v : Value),
    lookup key (values_cache c) = Some v -> lookup key (store c) = Some v.

Definition count_hit (c : LRUStoreCache) : LRUStoreCache :=
  mkCache (store c) (max_size c) (current_size c) (contains_cache c)
    (values_cache c) (S (hits c)) (misses c).

Definition count_miss (c : LRUStoreCache) : LRUStoreCache :=
  mkCache (store c) (max_size c) (current_size c) (contains_cache c)
    (values_cache c) (hits c) (S (misses c)).

(** The store holds the key. *)
Definition stored (s : Store) (key : string) : bool :=
  match lookup key s with
  | Some _ => true
  | None => false
  end.

(** What a read answers when it goes to the store. *)
Definition store_answer (s : Store) (key : string) : Py.res Value :=
  match lookup key s with
  | Some v => Py.Ok v
  | None => Py.Raise Py.KeyError
  end.

End CacheStates.

(** ** A store with an object larger than the cache *)

Module BigStore.

Definition big_chunk : string := "0/0/0/0/0/0".

Definition store_with_big_chunk : Zarr.Store :=
  [(".zgroup", Samples.meta 24); ("0/.zarray", Samples.meta 400);
   (big_chunk, Zarr.mkValue (2 ^ 28 + 1) [1; 2; 3]%Z);
   ("4/.zarray", Samples.meta 400)].

End BigStore.

(** ** Image geometry: where a voxel index lies in physical space *)

Module Geometry.

Import Itk ItkImage.

(** [ImageBase::TransformIndexToPhysicalPoint]: the origin plus, along each
    axis, index times spacing times the direction column of the axis. *)
Definition index_to_physical (i : Information) (idx : V3 Z) : Point :=
  add (add (add (Origin i)
              (scale (inject_Z (v0 idx) * v0 (Spacing i))
                 (col (Direction i) D0)))
         (scale (inject_Z (v1 idx) * v1 (Spacing i)) (col (Direction i) D1)))
    (scale (inject_Z (v2 idx) * v2 (Spacing i)) (col (Direction i) D2)).

(** The index of the same voxel counted from the far end of every axis. *)
Definition mirrored (size : V3 nat) (idx : V3 Z) : V3 Z :=
  mkV3 (Z.of_nat (v0 size) - 1 - v0 idx)%Z
       (Z.of_nat (v1 size) - 1 - v1 idx)%Z
       (Z.of_nat (v2 size) - 1 - v2 idx)%Z.

(** The number of elements of an array of a given shape. *)
Definition element_count (shape : list nat) : nat :=
  fold_right Nat.mul 1%nat shape.

(** An image of two by three by four voxels with anisotropic spacing. *)
Definition small_image : Image :=
  mkImage
    (mkInformation (mkV3 2 3 4)%nat (mkV3 (1 # 2) (1 # 4) (2 # 1))
       (mkPoint (10 # 1) (20 # 1) (30 # 1)) identity3)
    (mkV3 2 3 4)%nat [].

End Geometry.

(** ** [LocalFetchFromS3.ipynb], cell 6: choosing the sample bucket *)

Module BucketChoice.

(** The regular expressions of the notebook are sequences of literal
    texts and groups [(.+)]; a dot matches any character but a newline. *)
Inductive item : Type :=
| AnyText
| Lit (text : string).

Fixpoint strip_prefix (l s : string) : option string :=
  match l with
  | EmptyString => Some s
  | String a l' =>
      match s with
      | EmptyString => None
      | String b s' => if Ascii.eqb a b then strip_prefix l' s' else None
      end
  end.

(** [re.match(pattern, s)] as a truth value: the pattern has to match at
    the start of [s] and need not reach its end. *)
Fixpoint re_match (items : list item) : string -> bool :=
  match items with
  | [] => fun _ => true
  | Lit l :: rest =>
      fun s =>
        match strip_prefix l s with
        | Some s' => re_match rest s'
        | None => false
        end
  | AnyText :: rest =>
      fix any (s : string) : bool :=
        match s with
        | EmptyString => false
        | String c s' =>
            negb (Ascii.eqb c Py.newline) && (re_match rest s' || any s')
        end
  end.

(** Cell 2 and cell 6:
<<
SAMPLE_ID = "631680"
sample_bucket_name = next(
    bucket_name
    for bucket_name in fs.ls(SOURCE_BUCKET_NAME)
    if re.match(f"(.+){SAMPLE_ID}(.+)stitched(.+)", bucket_name)
)
>>
    The f-string puts the identifier into the pattern as it is, so an
    identifier is read as a piece of regular expression.  The identifiers
    of the samples are strings of decimal digits ([Decimal.uint], leading
    zeros kept), and a digit stands for itself in a pattern. *)
Definition SAMPLE_ID : uint := D6 (D3 (D1 (D6 (D8 (D0 Nil))))).

Definition id_text (sample_id : uint) : string :=
  NilEmpty.string_of_uint sample_id.

Definition bucket_pattern (sample_id : uint) : list item :=
  [AnyText; Lit (id_text sample_id); AnyText; Lit "stitched"; AnyText].

(** [next(generator)] returns the first item or raises [StopIteration]. *)
Inductive next_result : Type :=
| Next (bucket_name : string)
| StopIteration.

Fixpoint select_bucket (sample_id : uint) (listing : list string)
  : next_result :=
  match listing with
  | [] => StopIteration
  | bucket_name :: rest =>
      if re_match (bucket_pattern sample_id) bucket_name
      then Next bucket_name
      else select_bucket sample_id rest
  end.

(** A non-empty text without a line break: what a group [(.+)] can match. *)
Definition some_text (a : string) : Prop :=
  a <> EmptyString /\ Py.single_line a = true.

(** The names the pattern of the notebook is meant for: some text, the
    sample identifier, some text, the word [stitched], some text, and
    anything after that. *)
Definition stitched_name (sample_id name : string) : Prop :=
  exists a b c tail : string,
    some_text a /\ some_text b /\ some_text c
    /\ name = (a ++ sample_id ++ b ++ "stitched" ++ c ++ tail)%string.

(** The first lines of the bucket listing printed by cell 5, with the
    bucket cell 6 selects. *)
Definition listing_head : list string :=
  ["aind-open-data/SmartSPIM_000393_2023-01-06_13-35-10";
   "aind-open-data/SmartSPIM_000393_2023-01-06_13-35-10_stitched_2023-02-02_22-28-35";
   "aind-open-data/SmartSPIM_631680_2022-09-09_13-52-33";
   "aind-open-data/SmartSPIM_631680_2022-09-09_13-52-33_stitched_2022-11-10_17-18-18"].

End BucketChoice.

(** ** [ApplyTransformToPointSet.ipynb], cell 2: the sample name *)

Module SampleName.

(** What the expressions of the cell can raise. *)
Inductive error : Type :=
| IndexError
| ValueError.

Inductive result (A : Type) : Type :=
| Done (a : A)
| Fails (e : error).

Arguments Done {A} a.
Arguments Fails {A} e.

(** [s.split(sep)] for a non-empty separator: the text is cut at every
    occurrence of the separator found from left to right, occurrences never
    overlap, and the separators are dropped.  [skip] counts the characters
    of a separator already found that are still to be passed over. *)
Fixpoint split_from (sep : string) (skip : nat) (s : string) : list string :=
  match s with
  | EmptyString => [EmptyString]
  | String c s' =>
      match skip with
      | S k => split_from sep k s'
      | O =>
          if String.prefix sep s
          then EmptyString :: split_from sep (String.length sep - 1) s'
          else match split_from sep 0 s' with
               | piece :: rest => String c piece :: rest
               | [] => [String c EmptyString]
               end
      end
  end.

Definition split (sep s : string) : list string := split_from sep 0 s.

(** [l[i]] and [l[-1]] on a list of strings. *)
Definition item (l : list string) (i : nat) : result string :=
  match l !! i with
  | Some x => Done x
  | None => Fails IndexError
  end.

Definition last_item (l : list string) : result string :=
  match last l with
  | Some x => Done x
  | None => Fails IndexError
  end.

(** [int(text)]: blanks around the number are ignored, a sign may come
    first, and the digits may be grouped by single underscores; anything
    else is a [ValueError].  The blanks are the ASCII white space (tab to
    carriage return, and the space) and the two Latin-1 blanks, next line
    and no-break space, which [int] turns into spaces first; the separator
    characters 28 to 31 are not skipped. *)
Definition is_space (c : ascii) : bool :=
  let n := nat_of_ascii c in
  ((9 <=? n) && (n <=? 13) || (n =? 32) || (n =? 133) || (n =? 160))%nat.

Definition is_digit (c : ascii) : bool :=
  let n := nat_of_ascii c in ((48 <=? n) && (n <=? 57))%nat.

Fixpoint lstrip (s : list ascii) : list ascii :=
  match s with
  | c :: s' => if is_space c then lstrip s' else s
  | [] => []
  end.

Definition strip (s : string) : string :=
  string_of_list_ascii
    (rev (lstrip (rev (lstrip (list_ascii_of_string s))))).

(** The digits of a group of digits and underscores, or nothing when an
    underscore is not between two digits. *)
Fixpoint digits (after_digit : bool) (s : string) : option string :=
  match s with
  | EmptyString => if after_digit then Some EmptyString else None
  | String c s' =>
      if is_digit c then option_map (String c) (digits true s')
      else if Ascii.eqb c "_" && after_digit then digits false s'
      else None
  end.

Definition unsigned_value (body : string) : result Z :=
  match digits false body with
  | Some ds =>
      match NilEmpty.uint_of_string ds with
      | Some u => Done (Z.of_uint u)
      | None => Fails ValueError
      end
  | None => Fails ValueError
  end.

Definition int (text : string) : result Z :=
  match strip text with
  | String "-" body =>
      match unsigned_value body with
      | Done n => Done (- n)%Z
      | Fails e => Fails e
      end
  | String "+" body => unsigned_value body
  | body => unsigned_value body
  end.

(** Cell 2:
<<
SAMPLE_ID = int(SOURCE_IMAGE_INPUT_FILEPATH.split("_")[1])
SAMPLE_CHANNEL = SOURCE_IMAGE_INPUT_FILEPATH.split("/")[-1].split(".zarr")[0]
SAMPLE_NAME = f"{SAMPLE_ID}_{SAMPLE_CHANNEL}"
>> *)
Definition SOURCE_IMAGE_INPUT_FILEPATH : string :=
  "../data/SmartSPIM_631680_2022-09-09_13-52-33_stitched_2022-11-10_17-18-18/processed/OMEZarr/Ex_647_Em_690.zarr".

Definition SAMPLE_ID (path : string) : result Z :=
  match item (split "_" path) 1 with
  | Done field => int field
  | Fails e => Fails e
  end.

Definition SAMPLE_CHANNEL (path : string) : result string :=
  match last_item (split "/" path) with
  | Done name => item (split ".zarr" name) 0
  | Fails e => Fails e
  end.

Definition SAMPLE_NAME (path : string) : result string :=
  match SAMPLE_ID path with
  | Done id =>
      match SAMPLE_CHANNEL path with
      | Done channel => Done (Zarr.str_of_Z id ++ "_" ++ channel)
      | Fails e => Fails e
      end
  | Fails e => Fails e
  end.

(** Texts without a given character, texts of digits, and a number
    written without its leading zeros. *)
Fixpoint without (c : ascii) (s : string) : bool :=
  match s with
  | EmptyString => true
  | String a s' => negb (Ascii.eqb a c) && without c s'
  end.

Fixpoint all_digits (s : string) : bool :=
  match s with
  | EmptyString => true
  | String a s' => is_digit a && all_digits s'
  end.

Fixpoint strip_zeros (s : string) : string :=
  match s with
  | EmptyString => "0"
  | String "0" s' => strip_zeros s'
  | _ => s
  end.

End SampleName.

(** * Properties *)

Open Scope list_scope.

(** ** Loops over point containers *)

Section Containers.

Import Itk.

Lemma InsertElement_at_end {A : Type} (dflt : A) (c : list A) (x : A) :
  InsertElement dflt c (length c) x = c ++ [x].
Proof.
  unfold InsertElement.
  destruct (decide (length c < length c)%nat) as [Hlt | _]; [lia |].
  now rewrite Nat.sub_diag.
Qed.

Lemma lookup_map {A B : Type} (f : A -> B) (l : list A) (i : nat) (x : A) :
  l !! i = Some x -> map f l !! i = Some (f x).
Proof.
  revert i. induction l as [| a l IH]; intros [| i] H; simpl in *;
    try discriminate.
  - now injection H as ->.
  - now apply IH.
Qed.

Lemma GetPoint_lookup (ps : PointSet) (i : nat) (p : Point) :
  ps !! i = Some p -> GetPoint ps i = Py.Ok p.
Proof. unfold GetPoint. now intros ->. Qed.


End Containers.

(** ** Loading the markup *)

Section Loading.

Import Itk PointNotebook.

Lemma load_point_appends (acc : PointSet) (cp : Json.value) (p : Point) :
  position_of cp = Py.Ok p ->
  load_point acc (length acc, cp) = Py.Ok (acc ++ [p]).
Proof.
  unfold position_of, load_point. intros H.
  destruct (Json.getitem_key cp "position") as [pos |]; simpl in *;
    [| discriminate].
  rewrite H. simpl. unfold InsertPoint.
  now rewrite InsertElement_at_end.
Qed.

Lemma load_loop_appends (cps : list Json.value) (pts acc : PointSet) :
  Forall2 (fun cp p => position_of cp = Py.Ok p) cps pts ->
  Py.for_each load_point (combine (seq (length acc) (length cps)) cps) acc
  = Py.Ok (acc ++ pts).
Proof.
  intros H. revert acc.
  induction H as [| cp p cps pts Hcp _ IH]; intros acc.
  - simpl. now rewrite app_nil_r.
  - cbn [length seq combine Py.for_each].
    rewrite (load_point_appends _ _ _ Hcp). cbn [Py.bind].
    replace (S (length acc)) with (length (acc ++ [p]))
      by (rewrite length_app; simpl; lia).
    rewrite IH, <- app_assoc. reflexivity.
Qed.

(** C9.  Whatever markup groups follow the first one, the loaded point set
    is exactly the list of positions of the control points of group 0, in
    their order: the control points of the other groups are never read. *)
Theorem load_points_reads_first_group_only
  (top : list (string * Json.value)) (markup0 : Json.value)
  (others cps : list Json.value) (pts : PointSet) :
  Json.assoc "markups" top = Some (Json.JArr (markup0 :: others)) ->
  Json.getitem_key markup0 "controlPoints" = Py.Ok (Json.JArr cps) ->
  Forall2 (fun cp p => position_of cp = Py.Ok p) cps pts ->
  load_points (Json.JObj top) = Py.Ok pts.
Proof.
  intros Hm Hc Hp.
  unfold load_points, Json.getitem_key at 1. rewrite Hm.
  cbn [Py.bind Json.getitem_idx lookup list_lookup]. rewrite Hc.
  cbn [Py.bind Json.iter]. unfold Py.enumerate.
  exact (load_loop_appends cps pts [] Hp).
Qed.

Lemma load_points_reads_first_group_only_witness :
  load_points Samples.two_group_markup = Py.Ok Samples.two_points.
Proof.
  eapply load_points_reads_first_group_only.
  - reflexivity.
  - reflexivity.
  - repeat constructor.
Defined.

End Loading.

(** ** Stage 0 and the point table *)

Section Stage0.

Import Itk PointNotebook.


End Stage0.

(** ** Text: lines and decimal numbers *)

Section Text.

Lemma string_app_assoc (a b c : string) :
  ((a ++ b) ++ c)%string = (a ++ (b ++ c))%string.
Proof. induction a as [| ch a IH]; simpl; [reflexivity | now rewrite IH]. Qed.

Lemma string_app_nil_r (a : string) : (a ++ EmptyString)%string = a.
Proof. induction a as [| ch a IH]; simpl; [reflexivity | now rewrite IH]. Qed.

Lemma single_line_app (a b : string) :
  Py.single_line (a ++ b)%string = Py.single_line a && Py.single_line b.
Proof.
  induction a as [| ch a IH]; simpl; [reflexivity |].
  rewrite IH. now rewrite andb_assoc.
Qed.

Lemma single_line_digits (d : uint) :
  Py.single_line (NilEmpty.string_of_uint d) = true.
Proof. induction d; simpl; auto. Qed.

Lemma single_line_str_of_nat (n : nat) :
  Py.single_line (Py.str_of_nat n) = true.
Proof.
  unfold Py.str_of_nat, NilZero.string_of_uint.
  destruct (Nat.to_uint n); try reflexivity; apply single_line_digits.
Qed.

(** A text that starts with a line [s] and its line break. *)
Lemma splitlines_line (s rest : string) :
  Py.single_line s = true ->
  Py.splitlines (s ++ Py.nl ++ rest)%string = s :: Py.splitlines rest.
Proof.
  induction s as [| ch s IH]; intros Hs.
  - reflexivity.
  - simpl in Hs. apply andb_prop in Hs as [Hch Hs].
    apply negb_true_iff in Hch.
    change (String ch s ++ Py.nl ++ rest)%string
      with (String ch (s ++ Py.nl ++ rest)%string).
    cbn [Py.splitlines]. rewrite Hch.
    now rewrite (IH Hs).
Qed.

End Text.

(** ** The point table *)

Section PointTable.

Import Itk PointNotebook.

Variable float_repr : Q -> string.

Lemma write_loop (P : PointSet) (n k : nat) (f : string) :
  (k + n = length P)%nat ->
  Py.for_each (write_point float_repr P) (seq k n) f
  = Py.Ok (f ++ table_text float_repr (drop k P))%string.
Proof.
  revert k f.
  induction n as [| n IH]; intros k f Hlen.
  - rewrite drop_ge by lia. simpl. now rewrite string_app_nil_r.
  - destruct (lookup_lt_is_Some_2 P k ltac:(lia)) as [p Hp].
    cbn [seq Py.for_each]. unfold write_point at 1.
    rewrite (GetPoint_lookup _ _ _ Hp). cbn [Py.bind].
    rewrite IH by lia.
    rewrite (drop_S _ _ _ Hp). cbn [table_text]. unfold write.
    now rewrite !string_app_assoc.
Qed.

Lemma write_point_table_text (P : PointSet) :
  write_point_table float_repr P
  = Py.Ok ("point" ++ Py.nl ++ Py.str_of_nat (length P) ++ Py.nl
           ++ table_text float_repr P)%string.
Proof.
  unfold write_point_table, Py.range, GetNumberOfPoints.
  rewrite (write_loop P (length P) 0) by reflexivity.
  unfold write. rewrite drop_0. cbn [append].
  now rewrite !string_app_assoc.
Qed.

Lemma printable_single_line (p : Point) :
  printable float_repr p = true ->
  Py.single_line (point_line float_repr p) = true.
Proof.
  unfold printable, point_line. intros H.
  apply andb_prop in H as [H Hz]. apply andb_prop in H as [Hx Hy].
  rewrite !single_line_app, Hx, Hy, Hz. reflexivity.
Qed.

Lemma splitlines_table_text (P : PointSet) :
  forallb (printable float_repr) P = true ->
  Py.splitlines (table_text float_repr P) = map (point_line float_repr) P.
Proof.
  induction P as [| p P IH]; intros H; [reflexivity |].
  cbn [forallb] in H. apply andb_prop in H as [Hp HP].
  cbn [table_text map].
  rewrite splitlines_line by now apply printable_single_line.
  now rewrite IH.
Qed.

(** The lines of the table written for a point set whose coordinates print
    on one line. *)
Lemma splitlines_point_table (P : PointSet) :
  forallb (printable float_repr) P = true ->
  Py.splitlines ("point" ++ Py.nl ++ Py.str_of_nat (length P) ++ Py.nl
                 ++ table_text float_repr P)%string
  = "point" :: Py.str_of_nat (length P) :: map (point_line float_repr) P.
Proof.
  intros HP.
  rewrite (splitlines_line "point") by reflexivity.
  rewrite splitlines_line by apply single_line_str_of_nat.
  now rewrite splitlines_table_text.
Qed.

(** C3.  The table written for a point set of N points has the line
    [point], then the decimal count N, then exactly N lines; line [i+2]
    holds the three coordinates of point [i], separated by single spaces, in
    the order of the point set. *)
Theorem write_point_table_format (P : PointSet) :
  forallb (printable float_repr) P = true ->
  exists f : string,
    write_point_table float_repr P = Py.Ok f
    /\ Py.splitlines f !! 0%nat = Some "point"
    /\ Py.splitlines f !! 1%nat = Some (Py.str_of_nat (length P))
    /\ length (Py.splitlines f) = (2 + length P)%nat
    /\ forall (i : nat) (p : Point),
         P !! i = Some p ->
         Py.splitlines f !! (i + 2)%nat
         = Some (float_repr (px p) ++ " " ++ float_repr (py p) ++ " "
                 ++ float_repr (pz p))%string.
Proof.
  intros HP.
  eexists. split; [apply write_point_table_text |].
  rewrite (splitlines_point_table P HP).
  repeat split.
  - cbn [length]. now rewrite length_map.
  - intros i p Hi.
    replace (i + 2)%nat with (S (S i)) by lia.
    cbn [lookup list_lookup].
    now apply (lookup_map (point_line float_repr)).
Qed.

End PointTable.

Lemma write_point_table_format_witness :
  exists f : string,
    PointNotebook.write_point_table Samples.fixed5 Samples.two_points = Py.Ok f
    /\ Py.splitlines f !! 0%nat = Some "point"
    /\ Py.splitlines f !! 1%nat = Some "2"
    /\ length (Py.splitlines f) = 4%nat
    /\ forall (i : nat) (p : Itk.Point),
         Samples.two_points !! i = Some p ->
         Py.splitlines f !! (i + 2)%nat
         = Some (Samples.fixed5 (Itk.px p) ++ " " ++ Samples.fixed5 (Itk.py p)
                 ++ " " ++ Samples.fixed5 (Itk.pz p))%string.
Proof.
  apply (write_point_table_format Samples.fixed5 Samples.two_points).
  vm_compute. reflexivity.
Defined.

(** ** The parameter chain *)

Section ParameterChain.

Import PointNotebook.

Variable ParameterMap : Type.
Variable parse_parameter_file : string -> Py.res ParameterMap.

(** Every pass of the loop pushes the map of the file at hand at the back of
    the chain, whatever [param] held before. *)
Lemma add_stage_pushes (toplevel param : list ParameterMap) (f : string)
  (m : ParameterMap) :
  parse_parameter_file f = Py.Ok m ->
  add_stage ParameterMap parse_parameter_file (toplevel, param) f
  = Py.Ok (toplevel ++ [m], [m]).
Proof.
  intros H. unfold add_stage, ReadParameterFile. rewrite H. reflexivity.
Qed.

Lemma add_stages_loop (files : list string) (ms : list ParameterMap) :
  Forall2 (fun f m => parse_parameter_file f = Py.Ok m) files ms ->
  forall toplevel param : list ParameterMap,
  exists param' : list ParameterMap,
    Py.for_each (add_stage ParameterMap parse_parameter_file) files
      (toplevel, param)
    = Py.Ok (toplevel ++ ms, param').
Proof.
  induction 1 as [| f m files ms Hf _ IH]; intros toplevel param.
  - exists param. simpl. now rewrite app_nil_r.
  - cbn [Py.for_each]. rewrite (add_stage_pushes _ _ _ _ Hf). cbn [Py.bind].
    destruct (IH (toplevel ++ [m]) [m]) as [param' ->].
    exists param'. now rewrite <- app_assoc.
Qed.

Lemma build_parameter_chain_maps (files : list string)
  (ms : list ParameterMap) :
  Forall2 (fun f m => parse_parameter_file f = Py.Ok m) files ms ->
  build_parameter_chain ParameterMap parse_parameter_file files = Py.Ok ms.
Proof.
  intros H. unfold build_parameter_chain.
  destruct (add_stages_loop files ms H [] []) as [param' ->].
  reflexivity.
Qed.

(** C5.  For three readable stage files the chain is built, has three
    entries, and entry [k] is the parameter map read from stage file [k]. *)
Theorem parameter_chain_preserves_file_order (files : list string)
  (ms : list ParameterMap) :
  length files = 3%nat ->
  Forall2 (fun f m => parse_parameter_file f = Py.Ok m) files ms ->
  exists chain : list ParameterMap,
    build_parameter_chain ParameterMap parse_parameter_file files
    = Py.Ok chain
    /\ length chain = 3%nat
    /\ forall (k : nat) (f : string),
         files !! k = Some f ->
         exists m : ParameterMap,
           parse_parameter_file f = Py.Ok m /\ chain !! k = Some m.
Proof.
  intros Hlen H. exists ms. split; [now apply build_parameter_chain_maps |].
  split; [now rewrite <- (Forall2_length _ _ _ H) |].
  intros k f Hk.
  destruct (Forall2_lookup_l _ _ _ _ _ H Hk) as (m & Hm & Hf).
  now exists m.
Qed.

End ParameterChain.

Lemma parameter_chain_preserves_file_order_witness :
  exists chain : list nat,
    PointNotebook.build_parameter_chain nat Samples.toy_parse
      PointNotebook.ELASTIX_TRANSFORM_FILENAMES
    = Py.Ok chain
    /\ length chain = 3%nat
    /\ forall (k : nat) (f : string),
         PointNotebook.ELASTIX_TRANSFORM_FILENAMES !! k = Some f ->
         exists m : nat, Samples.toy_parse f = Py.Ok m /\ chain !! k = Some m.
Proof.
  apply (parameter_chain_preserves_file_order nat Samples.toy_parse
           PointNotebook.ELASTIX_TRANSFORM_FILENAMES [0; 1; 2]%nat).
  - reflexivity.
  - repeat constructor.
Defined.

(** ** The transform stack on a point set *)

Section Stack.

Import Itk PointNotebook.

Variable float_repr : Q -> string.
Variable ParameterMap : Type.
Variable engine_rows : list ParameterMap -> string -> list Row.




End Stack.


(** For the two points of the sample the stand-in engine's file has two
    rows and the call returns them. *)
Example two_points_give_two_rows :
  exists (init_points : Itk.PointSet) (point_file : string)
         (result : PointNotebook.ndarray_str),
    PointNotebook.apply_init_transform PointNotebook.init_transform
      Samples.two_points = Py.Ok init_points
    /\ PointNotebook.write_point_table Samples.fixed5 init_points
       = Py.Ok point_file
    /\ PointNotebook.transformix_pointset nat Samples.undeformed_rows
         [0; 1; 2]%nat point_file = Py.Ok result
    /\ PointNotebook.len result = Py.Ok 2%nat.
Proof.
  do 3 eexists.
  split; [vm_compute; reflexivity |].
  split; [vm_compute; reflexivity |].
  split; [vm_compute; reflexivity |].
  vm_compute. auto.
Qed.


(** ** Stage 0 on the reference point *)

Section ReferencePoint.

Import Itk PointNotebook.

Lemma Qabs_diff_small (a b eps : Q) :
  (a == b -> 0 <= eps -> Qabs (a - b) <= eps)%Q.
Proof.
  intros Hab Heps.
  assert (H0 : a - b == 0) by (rewrite Hab; ring).
  now rewrite H0.
Qed.

(** C2.  With the identity rotation and the translation
    (-12.3259, -2.6141, -8.1635), whatever the centre of rotation, the input
    point (8.46357, 9.5616, 5.61258) is sent to
    (-3.86233, 6.9475, -2.55092) within 1e-3 on every coordinate. *)
Theorem stage0_reference_point (center : Point) :
  within (1 # 1000)
    (TransformPoint
       (mkVersorRigid identity3 center
          (mkPoint (- (123259 # 10000)) (- (26141 # 10000))
             (- (81635 # 10000))))
       (mkPoint (846357 # 100000) (95616 # 10000) (561258 # 100000)))
    (mkPoint (- (386233 # 100000)) (69475 # 10000) (- (255092 # 100000))).
Proof.
  destruct center as [cx cy cz].
  unfold within, TransformPoint, Offset, mat_vec, identity3.
  cbn [px py pz Matrix Center Translation m00 m01 m02 m10 m11 m12 m20 m21 m22].
  repeat split; apply Qabs_diff_small; try discriminate; ring.
Qed.

Lemma within_bounds (eps : Q) (p q : Point) :
  within eps p q <->
  (- eps <= px p - px q <= eps /\ - eps <= py p - py q <= eps
   /\ - eps <= pz p - pz q <= eps)%Q.
Proof. unfold within. rewrite !Qabs_Qle_condition. tauto. Qed.

(** The same under rounding: when the translation and the input point are
    only known to 1e-4 and the result is stored with an error of at most
    1e-4, as single precision more than guarantees at this magnitude, the
    stored point is still within 1e-3 of the reference value. *)
Lemma reference_point_under_rounding (center t p r : Point) :
  within (1 # 10000) t
    (mkPoint (- (123259 # 10000)) (- (26141 # 10000)) (- (81635 # 10000))) ->
  within (1 # 10000) p
    (mkPoint (846357 # 100000) (95616 # 10000) (561258 # 100000)) ->
  within (1 # 10000) r (TransformPoint (mkVersorRigid identity3 center t) p) ->
  within (1 # 1000) r
    (mkPoint (- (386233 # 100000)) (69475 # 10000) (- (255092 # 100000))).
Proof.
  rewrite !within_bounds.
  destruct center as [cx cy cz], t as [tx ty tz], p as [x y z],
    r as [rx ry rz].
  unfold TransformPoint, Offset, mat_vec, identity3.
  cbn [px py pz Matrix Center Translation m00 m01 m02 m10 m11 m12 m20 m21 m22].
  intros (Ht1 & Ht2 & Ht3) (Hp1 & Hp2 & Hp3) (Hr1 & Hr2 & Hr3).
  repeat split; lra.
Qed.

(** The notebook's own transform, with the centre it prints, has the offset
    it prints and sends the first point where cell 7 shows it. *)
Example init_transform_first_point :
  within 0 (Offset init_transform)
    (mkPoint (- (123259 # 10000)) (- (26141 # 10000)) (- (81635 # 10000)))
  /\ within (1 # 1000)
       (TransformPoint init_transform
          (mkPoint (846357 # 100000) (95616 # 10000) (561258 # 100000)))
       (mkPoint (- (386233 # 100000)) (69475 # 10000) (- (255092 # 100000))).
Proof. vm_compute. repeat split; discriminate. Qed.

End ReferencePoint.

(** ** Reading the result rows *)

Section ResultRows.

Import PointNotebook Samples.

Lemma slice_middle {A : Type} (a b : nat) (pre g rest : list A) :
  length pre = a -> length g = (b - a)%nat ->
  Py.slice a b (pre ++ g ++ rest) = g.
Proof.
  intros <- Hb. unfold Py.slice.
  rewrite drop_app_length, <- Hb.
  apply take_app_length.
Qed.

(** C1, as the notebook does it.  The two groups are cut at fixed positions:
    when the row has the layout of transformix's table, with the seven
    fields of the input-point group at positions 11..17 and the eight fields
    of the output-point group (its separator included) at positions 27..34,
    the slices are exactly these groups, whatever the fields are and
    whatever follows. *)
Theorem slices_cut_fixed_positions {A : Type}
  (pre g_in mid g_out rest : list A) :
  length pre = 11%nat -> length g_in = 7%nat ->
  length mid = 9%nat -> length g_out = 8%nat ->
  input_fields (pre ++ g_in ++ mid ++ g_out ++ rest) = g_in
  /\ output_fields (pre ++ g_in ++ mid ++ g_out ++ rest) = g_out.
Proof.
  intros Hpre Hin Hmid Hout. unfold input_fields, output_fields. split.
  - now apply slice_middle.
  - replace (pre ++ g_in ++ mid ++ g_out ++ rest)
      with ((pre ++ g_in ++ mid) ++ g_out ++ rest)
      by now rewrite <- !app_assoc.
    apply slice_middle; [| exact Hout].
    rewrite !length_app. lia.
Qed.

Lemma slices_cut_fixed_positions_witness :
  input_fields (fields transformix_line)
  = ["InputPoint"; "="; "["; "-3.86233"; "6.9475"; "-2.55092"; "]"]
  /\ output_fields (fields transformix_line)
     = ["OutputPoint"; "="; "["; "-3.70114"; "6.88021"; "-2.45519"; "]"; ";"].
Proof.
  exact (slices_cut_fixed_positions
           (take 11 (fields transformix_line))
           ["InputPoint"; "="; "["; "-3.86233"; "6.9475"; "-2.55092"; "]"]
           (take 9 (drop 18 (fields transformix_line)))
           ["OutputPoint"; "="; "["; "-3.70114"; "6.88021"; "-2.45519"; "]";
            ";"]
           (drop 35 (fields transformix_line))
           eq_refl eq_refl eq_refl eq_refl).
Defined.

(** C1, as stated, fails.  [short_line] holds both labeled groups, and
    reading by label finds them; the slices do not: the input slice returns
    the output-point group and the output slice is empty.  Read as a string
    of characters, the same slices cut the label itself in two. *)
Lemma slices_miss_labeled_groups :
  labeled_group "InputPoint" (fields short_line) = Some ["1.5"; "2.5"; "3.5"]
  /\ labeled_group "OutputPoint" (fields short_line)
     = Some ["4.5"; "5.5"; "6.5"]
  /\ input_fields (fields short_line)
     = ["OutputPoint"; "="; "["; "4.5"; "5.5"; "6.5"; "]"]
  /\ output_fields (fields short_line) = []
  /\ labeled_group "InputPoint" (input_fields (fields short_line)) = None
  /\ labeled_group "OutputPoint" (output_fields (fields short_line)) = None
  /\ string_of_list_ascii (input_fields (list_ascii_of_string short_line))
     = "nputPoi"
  /\ string_of_list_ascii (output_fields (list_ascii_of_string short_line))
     = "5 2.5 3.".
Proof. vm_compute. repeat split. Qed.

End ResultRows.

(** ** Orientation: the round trip of the direction matrix *)

Section Orientation.

Import Itk ItkImage FetchNotebook.

Lemma col_of_cols (c : Dim -> Point) (j : Dim) : col (of_cols c) j = c j.
Proof. destruct j; simpl; now destruct (c _). Qed.

Lemma of_cols_ext (c c' : Dim -> Point) :
  (forall j, c j = c' j) -> of_cols c = of_cols c'.
Proof. intros H. unfold of_cols. now rewrite !H. Qed.

Lemma of_cols_col (m : Matrix3) : of_cols (col m) = m.
Proof. now destruct m. Qed.

Lemma Qneg_neg (q : Q) : (-1 * (-1 * q))%Q = q.
Proof. destruct q as [[| n | n] d]; reflexivity. Qed.

Lemma scale_neg_neg (p : Point) : scale (-1) (scale (-1) p) = p.
Proof. destruct p. unfold scale. simpl. now rewrite !Qneg_neg. Qed.

(** Spanning the buffer touches the region only. *)
Lemma UpdateOutputInformation_keeps (img : Image) :
  Spacing (Info (UpdateOutputInformation img)) = Spacing (Info img)
  /\ Origin (Info (UpdateOutputInformation img)) = Origin (Info img)
  /\ Direction (Info (UpdateOutputInformation img)) = Direction (Info img)
  /\ BufferedRegion (UpdateOutputInformation img) = BufferedRegion img
  /\ PixelContainer (UpdateOutputInformation img) = PixelContainer img.
Proof.
  unfold UpdateOutputInformation.
  destruct (0 <? GetNumberOfPixels (BufferedRegion img))%nat; repeat split.
Qed.

(** An image whose region is its buffered region is left as it is. *)
Lemma UpdateOutputInformation_spanning (img : Image) :
  LargestPossibleRegion (Info img) = BufferedRegion img ->
  UpdateOutputInformation img = img.
Proof.
  intros H. unfold UpdateOutputInformation.
  destruct (0 <? GetNumberOfPixels (BufferedRegion img))%nat; [| reflexivity].
  destruct img as [[region spacing origin direction] buffered pixels].
  cbn [Info LargestPossibleRegion BufferedRegion] in *. now subst.
Qed.

Lemma direction_reconcile (given desired : ValidCoordinateOrientations)
  (img : Image) :
  Direction (Info (reconcile given desired img))
  = of_cols (fun j =>
      signed (FlipAxes (code_value desired) (code_value given) j)
        (col (Direction (Info img))
           (PermuteOrder (code_value desired) (code_value given) j))).
Proof.
  destruct (UpdateOutputInformation_keeps img) as (_ & _ & Hd & _).
  unfold reconcile, CopyInformation, orient_output_information,
    flip_information, permute_information, signed.
  cbn [Info Direction]. rewrite Hd.
  apply of_cols_ext. intros j. now rewrite col_of_cols.
Qed.

(** The information after a reconciliation: that of the filter's output for
    the image with its region reset. *)
Lemma reconcile_information (given desired : ValidCoordinateOrientations)
  (img : Image) :
  Info (reconcile given desired img)
  = orient_output_information given desired
      (mkInformation
         (if (0 <? GetNumberOfPixels (BufferedRegion img))%nat
          then BufferedRegion img else LargestPossibleRegion (Info img))
         (Spacing (Info img)) (Origin (Info img)) (Direction (Info img))).
Proof.
  unfold reconcile, UpdateOutputInformation, CopyInformation.
  destruct (0 <? GetNumberOfPixels (BufferedRegion img))%nat;
    [reflexivity | now destruct img as [[? ? ? ?] ? ?]].
Qed.

(** Going there and back, every axis returns to its place with its sign. *)
Lemma permute_flip_round_trip (a b : ValidCoordinateOrientations) (j : Dim) :
  let pab := PermuteOrder (code_value b) (code_value a) in
  let pba := PermuteOrder (code_value a) (code_value b) in
  pab (pba j) = j
  /\ FlipAxes (code_value a) (code_value b) j
     = FlipAxes (code_value b) (code_value a) (pba j).
Proof. destruct a, b, j; vm_compute; split; reflexivity. Qed.

(** C6.  For every pair of orientation codes A and B, reconciling from A to
    B and then from B to A gives back the direction matrix of the image,
    entry for entry (so within any tolerance). *)
Theorem orientation_round_trip (a b : ValidCoordinateOrientations)
  (img : Image) :
  Direction (Info (reconcile b a (reconcile a b img)))
  = Direction (Info img).
Proof.
  rewrite direction_reconcile.
  transitivity (of_cols (col (Direction (Info img))));
    [| apply of_cols_col].
  apply of_cols_ext. intros j.
  rewrite direction_reconcile, col_of_cols.
  destruct (permute_flip_round_trip a b j) as [Hp Hf].
  cbv zeta in Hp, Hf. rewrite Hp, Hf.
  unfold signed.
  destruct (FlipAxes (code_value b) (code_value a)
              (PermuteOrder (code_value a) (code_value b) j));
    [apply scale_neg_neg | reflexivity].
Qed.

End Orientation.

(** ** Image mode: the buffer is left alone *)

Section ImageMode.

Import Itk ItkImage FetchNotebook.

(** The notebook prints, after cell 12, the direction [-1 0 0; 0 -1 0;
    0 0 -1] and the origin [13.2768, 18.4032, 8.352]: so does the model. *)
Example notebook_image_information :
  let img := reconcile RAI LPS (SetSpacing Samples.level4_view axis_spacings) in
  Direction (Info img) = mkMatrix3 (-1) 0 0 0 (-1) 0 0 0 (-1)
  /\ within (1 # 1000000000) (Origin (Info img))
       (mkPoint (132768 # 10000) (184032 # 10000) (8352 # 1000))
  /\ LargestPossibleRegion (Info img) = mkV3 462 640 262%nat.
Proof. vm_compute. repeat split; discriminate. Qed.

(** C10.  Reconciling the orientation, for any pair of codes, replaces the
    information of the image and nothing else; for the notebook's run the
    pixel container of the image handed to [itk.imwrite] holds the voxels of
    the fetched level, in their order, with the buffered size and the region
    of the squeezed array. *)
Theorem reconcile_leaves_buffer (fetched : Np.ndarray Z) (view : Image) :
  image_view_from_array (Np.astype Np.float32_of_uint16 (Np.squeeze fetched))
  = Py.Ok view ->
  (forall (given desired : ValidCoordinateOrientations) (img : Image),
      PixelContainer (reconcile given desired img) = PixelContainer img
      /\ BufferedRegion (reconcile given desired img) = BufferedRegion img)
  /\ exists written : Image,
       image_to_write fetched = Py.Ok written
       /\ PixelContainer written = PixelContainer view
       /\ BufferedRegion written = BufferedRegion view
       /\ LargestPossibleRegion (Info written)
          = LargestPossibleRegion (Info view)
       /\ PixelContainer written
          = map Np.float32_of_uint16 (Np.data fetched).
Proof.
  intros Hview. split.
  - intros given desired img.
    destruct (UpdateOutputInformation_keeps img) as (_ & _ & _ & Hb & Hp).
    unfold reconcile, CopyInformation. cbn [PixelContainer BufferedRegion].
    now split.
  - unfold image_to_write. rewrite Hview. cbn [Py.bind].
    eexists. split; [reflexivity |].
    unfold image_view_from_array in Hview.
    destruct (Np.shape _) as [| nz [| ny [| nx [| ? ?]]]]; try discriminate.
    injection Hview as <-.
    unfold reconcile.
    rewrite UpdateOutputInformation_spanning by reflexivity.
    repeat split.
Qed.

Lemma reconcile_leaves_buffer_witness :
  (forall (given desired : ValidCoordinateOrientations) (img : Image),
      PixelContainer (reconcile given desired img) = PixelContainer img
      /\ BufferedRegion (reconcile given desired img) = BufferedRegion img)
  /\ exists written : Image,
       image_to_write Samples.small_level = Py.Ok written
       /\ PixelContainer written
          = [11; 12; 13; 14; 15; 16; 17; 18; 19; 20; 21; 22]%Q
       /\ BufferedRegion written = mkV3 3 2 2%nat
       /\ LargestPossibleRegion (Info written) = mkV3 3 2 2%nat
       /\ PixelContainer written
          = map Np.float32_of_uint16 (Np.data Samples.small_level).
Proof.
  exact (reconcile_leaves_buffer Samples.small_level
           (mkImage
              (mkInformation (mkV3 3 2 2%nat) (mkV3 1%Q 1%Q 1%Q) origin_point
                 identity3)
              (mkV3 3 2 2%nat)
              [11; 12; 13; 14; 15; 16; 17; 18; 19; 20; 21; 22]%Q)
           eq_refl).
Defined.

End ImageMode.

(** ** The store cache *)

Section StoreCache.

Import Zarr FetchNotebook.

Lemma buffer_size_nonneg (v : Value) : (0 <= buffer_size v)%Z.
Proof. unfold buffer_size. lia. Qed.

Lemma total_size_app (d1 d2 : list (string * Value)) :
  total_size (d1 ++ d2) = (total_size d1 + total_size d2)%Z.
Proof.
  induction d1 as [| [k v] d1 IH]; simpl; [reflexivity | rewrite IH; lia].
Qed.

Lemma keys_app (d1 d2 : list (string * Value)) :
  keys (d1 ++ d2) = keys d1 ++ keys d2.
Proof. apply map_app. Qed.

Lemma lookup_None_not_key (key : string) (d : list (string * Value)) :
  lookup key d = None -> key ∉ keys d.
Proof.
  induction d as [| [k v] d IH]; simpl; intros H.
  - apply not_elem_of_nil.
  - destruct (String.eqb_spec key k) as [-> | Hne]; [discriminate |].
    apply not_elem_of_cons. split; [exact Hne | now apply IH].
Qed.

Lemma remove_key_subset (key k : string) (d : list (string * Value)) :
  k ∈ keys (remove_key key d) -> k ∈ keys d /\ k <> key.
Proof.
  unfold remove_key.
  induction d as [| [k' v] d IH]; cbn [List.filter fst]; intros H.
  - now apply elem_of_nil in H.
  - destruct (String.eqb_spec key k') as [-> | Hne]; simpl in H.
    + destruct (IH H) as [Hin Hk]. split; [now right | exact Hk].
    + apply elem_of_cons in H as [-> | H].
      * split; [now left | congruence].
      * destruct (IH H) as [Hin Hk]. split; [now right | exact Hk].
Qed.

Lemma remove_key_absent (key : string) (d : list (string * Value)) :
  key ∉ keys d -> remove_key key d = d.
Proof.
  unfold remove_key.
  induction d as [| [k v] d IH]; intros Hk; [reflexivity |].
  change (keys ((k, v) :: d)) with (k :: keys d) in Hk.
  apply not_elem_of_cons in Hk as [Hne Hk].
  cbn [List.filter fst].
  destruct (String.eqb_spec key k) as [-> | _]; [congruence |].
  cbn [negb]. now rewrite IH.
Qed.

Lemma NoDup_remove_key (key : string) (d : list (string * Value)) :
  NoDup (keys d) -> NoDup (keys (remove_key key d)).
Proof.
  induction d as [| [k v] d IH]; intros H; [constructor |].
  change (keys ((k, v) :: d)) with (k :: keys d) in H.
  apply NoDup_cons in H as [Hk Hd].
  unfold remove_key. cbn [List.filter fst]. fold (remove_key key d).
  destruct (String.eqb key k); cbn [negb]; [now apply IH |].
  change (keys ((k, v) :: remove_key key d))
    with (k :: keys (remove_key key d)).
  apply NoDup_cons. split; [| now apply IH].
  intros Hin. apply remove_key_subset in Hin as [Hin _]. now apply Hk.
Qed.

Lemma total_size_remove_key (key : string) (value : Value)
  (d : list (string * Value)) :
  NoDup (keys d) -> lookup key d = Some value ->
  (total_size (remove_key key d) + buffer_size value = total_size d)%Z.
Proof.
  induction d as [| [k v] d IH]; intros Hnd Hl; [discriminate |].
  change (keys ((k, v) :: d)) with (k :: keys d) in Hnd.
  apply NoDup_cons in Hnd as [Hk Hd].
  unfold remove_key. cbn [List.filter fst lookup] in *.
  fold (remove_key key d).
  destruct (String.eqb_spec key k) as [-> | Hne]; cbn [negb total_size].
  - injection Hl as ->.
    rewrite (remove_key_absent k d Hk). lia.
  - specialize (IH Hd Hl). lia.
Qed.

(** Making room never fails for a value that fits the cache, and what stays
    is the most recently used end of what was cached. *)
Lemma accommodate_value_fits (max value_size : Z)
  (values : list (string * Value)) :
  (0 <= value_size <= max)%Z ->
  exists (dropped kept : list (string * Value)),
    values = dropped ++ kept
    /\ accommodate_value max value_size values (total_size values)
       = (Py.Ok tt, (kept, total_size kept))
    /\ (total_size kept + value_size <= max)%Z.
Proof.
  intros Hsize.
  induction values as [| [k v] values IH].
  - exists [], []. cbn.
    destruct (Z.gtb_spec (0 + value_size) max) as [Hgt | Hle]; [lia |].
    repeat split; lia.
  - cbn [accommodate_value total_size].
    destruct (Z.gtb_spec (buffer_size v + total_size values + value_size) max)
      as [Hgt | Hle].
    + destruct IH as (dropped & kept & -> & Hacc & Hfit).
      exists ((k, v) :: dropped), kept. repeat split; [| exact Hfit].
      replace (buffer_size v + total_size (dropped ++ kept) - buffer_size v)%Z
        with (total_size (dropped ++ kept)) by lia.
      exact Hacc.
    + exists [], ((k, v) :: values). repeat split. exact Hle.
Qed.

Lemma NoDup_keys_suffix (dropped kept : list (string * Value)) :
  NoDup (keys (dropped ++ kept)) -> NoDup (keys kept).
Proof. rewrite keys_app. intros H. now apply NoDup_app in H as (_ & _ & H). Qed.

Lemma NoDup_keys_snoc (d : list (string * Value)) (key : string) (v : Value) :
  NoDup (keys d) -> key ∉ keys d -> NoDup (keys (d ++ [(key, v)])).
Proof.
  intros Hd Hk. rewrite keys_app. apply NoDup_app. repeat split.
  - exact Hd.
  - intros x Hx Hin. simpl in Hin. apply list_elem_of_singleton in Hin.
    subst x. now apply Hk.
  - simpl. apply NoDup_singleton.
Qed.

(** What a read leaves alone. *)
Lemma getitem_frame (c : LRUStoreCache) (key : string) :
  store (snd (getitem c key)) = store c
  /\ max_size (snd (getitem c key)) = max_size c
  /\ contains_cache (snd (getitem c key)) = contains_cache c.
Proof.
  unfold getitem.
  destruct (lookup key (values_cache c)); [now repeat split |].
  destruct (lookup key (store c)); [| now repeat split].
  unfold cache_value. cbn [max_size values_cache current_size].
  destruct (buffer_size v <=? max_size c)%Z.
  - destruct (accommodate_value _ _ _ _) as [[[] | e] [values current]];
      now repeat split.
  - now repeat split.
Qed.

(** A read keeps the bookkeeping sound. *)
Lemma getitem_cache_ok (c : LRUStoreCache) (key : string) :
  cache_ok c -> cache_ok (snd (getitem c key)).
Proof.
  intros (Hsize & Hmax & Hnd). unfold getitem.
  destruct (lookup key (values_cache c)) as [value |] eqn:Hhit.
  - repeat split; cbn [snd current_size values_cache max_size].
    + rewrite total_size_app. cbn [total_size].
      pose proof (total_size_remove_key key value _ Hnd Hhit). lia.
    + exact Hmax.
    + apply NoDup_keys_snoc; [now apply NoDup_remove_key |].
      intros Hin. now apply remove_key_subset in Hin as [_ Hne].
  - destruct (lookup key (store c)) as [value |]; [| now repeat split].
    unfold cache_value. cbn [max_size values_cache current_size].
    destruct (Z.leb_spec (buffer_size value) (max_size c)) as [Hle | Hgt].
    + rewrite Hsize.
      destruct (accommodate_value_fits (max_size c) (buffer_size value)
                  (values_cache c))
        as (dropped & kept & Hsplit & -> & Hfit).
      { pose proof (buffer_size_nonneg value). lia. }
      repeat split; cbn [snd current_size values_cache max_size].
      * rewrite total_size_app. cbn [total_size]. lia.
      * exact Hfit.
      * rewrite Hsplit in Hnd.
        apply NoDup_keys_snoc; [now apply NoDup_keys_suffix in Hnd |].
        apply lookup_None_not_key in Hhit. rewrite Hsplit, keys_app in Hhit.
        intros Hin. apply Hhit. apply elem_of_app. now right.
    + now repeat split.
Qed.

End StoreCache.

(** ** Runs of the accessor *)

Section Accessor.

Import Zarr FetchNotebook.

Lemma run_snoc (c : LRUStoreCache) (reads : list string) (key : string) :
  run c (reads ++ [key]) = snd (getitem (run c reads) key).
Proof. unfold run. now rewrite fold_left_app. Qed.

Lemma open_root_unfold (s : Store) :
  open_root s
  = snd (getitem (mkCache s MAX_SIZE 0 (Some (keys s)) [] 0 0)
           group_meta_key).
Proof. reflexivity. Qed.

Lemma open_root_cache_ok (s : Store) : cache_ok (open_root s).
Proof.
  rewrite open_root_unfold.
  apply getitem_cache_ok.
  repeat split; cbn; [discriminate | constructor].
Qed.

Lemma open_root_frame (s : Store) :
  store (open_root s) = s
  /\ max_size (open_root s) = MAX_SIZE
  /\ contains_cache (open_root s) = Some (keys s).
Proof.
  rewrite open_root_unfold.
  destruct (getitem_frame
              (mkCache s MAX_SIZE 0 (Some (keys s)) [] 0 0) group_meta_key)
    as (-> & -> & ->).
  now repeat split.
Qed.

Lemma run_cache_ok (c : LRUStoreCache) (reads : list string) :
  cache_ok c -> cache_ok (run c reads).
Proof.
  intros Hc. induction reads as [| key reads IH] using rev_ind;
    [exact Hc |].
  rewrite run_snoc. now apply getitem_cache_ok.
Qed.

Lemma run_frame (c : LRUStoreCache) (reads : list string) :
  store (run c reads) = store c
  /\ max_size (run c reads) = max_size c
  /\ contains_cache (run c reads) = contains_cache c.
Proof.
  induction reads as [| key reads (IHs & IHm & IHc)] using rev_ind;
    [now repeat split |].
  rewrite run_snoc.
  destruct (getitem_frame (run c reads) key) as (-> & -> & ->).
  now repeat split.
Qed.

(** C7, as the notebook does it.  The cache is the LRU cache of the store,
    bounded in bytes: after any run of reads the recorded size is the size
    of the cached values, and it never exceeds [2**28] bytes. *)
Theorem cache_bounded_by_max_size (s : Store) (reads : list string) :
  let c := run (open_root s) reads in
  current_size c = total_size (values_cache c)
  /\ (0 <= total_size (values_cache c) <= 2 ^ 28)%Z
  /\ NoDup (keys (values_cache c)).
Proof.
  cbv zeta.
  destruct (run_cache_ok (open_root s) reads (open_root_cache_ok s))
    as (Hsize & Hmax & Hnd).
  destruct (run_frame (open_root s) reads) as (_ & Hm & _).
  destruct (open_root_frame s) as (_ & Hm0 & _).
  rewrite Hm, Hm0 in Hmax. unfold MAX_SIZE in Hmax.
  repeat split; try assumption; [| lia].
  clear. induction (values_cache _) as [| [k v] d IH]; cbn [total_size];
    [lia |]. pose proof (buffer_size_nonneg v). lia.
Qed.

(** C7, as stated, fails.  The first chunk of level 4 is cached by the
    first read and evicted by the second; and the seven metadata objects of
    the five-level store are seven cached entries. *)
Lemma cache_evicts_and_outgrows_levels :
  let root := open_root Samples.channel_store in
  lookup Samples.chunk_a (values_cache (run root [Samples.chunk_a]))
  = Some (mkValue (2 ^ 27 + 1) [7; 8]%Z)
  /\ lookup Samples.chunk_a
       (values_cache (run root [Samples.chunk_a; Samples.chunk_b]))
     = None
  /\ length
       (values_cache
          (run root [".zattrs"; "0/.zarray"; "1/.zarray"; "2/.zarray";
                     "3/.zarray"; "4/.zarray"]))
     = 7%nat.
Proof. vm_compute. repeat split. Qed.

(** A failed lookup: an index that names no member of the root group makes
    [root[i]] raise [KeyError] and leaves the cache as it was. *)
Lemma get_level_missing_member (s : Store) (reads : list string) (i : Z) :
  has_member s i = false ->
  get_level (run (open_root s) reads) i
  = (Py.Raise Py.KeyError, run (open_root s) reads).
Proof.
  unfold has_member, has_array. intros H.
  apply orb_false_iff in H as [Harr Hgrp].
  destruct (run_frame (open_root s) reads) as (_ & _ & Hc).
  destruct (open_root_frame s) as (_ & _ & Hc0).
  rewrite Hc0 in Hc.
  assert (Hin : forall key,
             contains (run (open_root s) reads) key
             = (contains_key key (keys s), run (open_root s) reads))
    by (intros key; unfold contains; now rewrite Hc).
  unfold get_level, Group_getitem.
  rewrite Hin, Harr. cbv beta iota zeta.
  rewrite Hin, Hgrp. reflexivity.
Qed.

(** Member names are decimal numbers, read back without loss. *)
Lemma Z_of_str_of_Z (i : Z) : Z_of_str (str_of_Z i) = Some i.
Proof.
  unfold Z_of_str, str_of_Z.
  rewrite NilZero.isi.
  - simpl. now rewrite DecimalZ.of_to.
  - destruct i as [| p | p]; simpl; try discriminate.
    intros E. injection E as E. now apply (Unsigned.to_uint_nonnil p).
  - destruct i as [| p | p]; simpl; try discriminate.
    intros E. injection E as E. now apply (Unsigned.to_uint_nonnil p).
Qed.

Lemma string_length_app (a b : string) :
  String.length (a ++ b)%string = (String.length a + String.length b)%nat.
Proof. induction a as [| c a IH]; simpl; [reflexivity | now rewrite IH]. Qed.

Lemma substring_prefix (a b : string) :
  substring 0 (String.length a) (a ++ b)%string = a.
Proof.
  induction a as [| c a IH]; simpl; [now destruct b | now rewrite IH].
Qed.

(** The index named by a store key [str(i) ++ suffix]. *)
Lemma key_index (i : Z) (suffix key : string) :
  (str_of_Z i ++ suffix)%string = key ->
  Z_of_str (substring 0 (String.length key - String.length suffix) key)
  = Some i.
Proof.
  intros <-. rewrite string_length_app, Nat.add_sub, substring_prefix.
  apply Z_of_str_of_Z.
Qed.

(** The notebook's store is a pyramid of five levels. *)
Lemma channel_store_levels : pyramid_levels Samples.channel_store 5.
Proof.
  split.
  - intros i Hi.
    assert (H : (i = 0 \/ i = 1 \/ i = 2 \/ i = 3 \/ i = 4)%Z) by lia.
    destruct H as [-> | [-> | [-> | [-> | ->]]]]; reflexivity.
  - intros i. unfold has_member, has_array, contains_key.
    cbn [Samples.channel_store keys map fst existsb].
    repeat
      match goal with
      | |- context [String.eqb (str_of_Z i ++ ?suffix)%string ?key] =>
          destruct (String.eqb_spec (str_of_Z i ++ suffix)%string key)
            as [E | _];
          [ apply key_index in E; vm_compute in E;
            first [ discriminate E | injection E as <-; lia ] | ]
      end.
    discriminate.
Qed.

(** C8, as the notebook does it.  In a store holding a pyramid of
    [numLevels] levels, every index outside [0, numLevels) makes [root[i]]
    raise [KeyError], and the cache after the failed call is the cache before
    it, whatever was read before. *)
Theorem get_level_out_of_range_raises_KeyError (s : Store) (numLevels : Z)
  (reads : list string) (i : Z) :
  pyramid_levels s numLevels ->
  ~ (0 <= i < numLevels)%Z ->
  get_level (run (open_root s) reads) i
  = (Py.Raise Py.KeyError, run (open_root s) reads).
Proof.
  intros [_ Hin] Hout.
  apply get_level_missing_member.
  destruct (has_member s i) eqn:Hm; [| reflexivity].
  exfalso. apply Hout. now apply Hin.
Qed.

Lemma get_level_out_of_range_raises_KeyError_witness :
  get_level (run (open_root Samples.channel_store) [Samples.chunk_a]) 5
  = (Py.Raise Py.KeyError,
     run (open_root Samples.channel_store) [Samples.chunk_a]).
Proof.
  apply (get_level_out_of_range_raises_KeyError Samples.channel_store 5
           [Samples.chunk_a] 5).
  - exact channel_store_levels.
  - lia.
Defined.

(** C8, as stated, fails: the error raised for level 5 of the five-level
    store, and for level -1, is [KeyError], not [ValidationError]. *)
Lemma get_level_does_not_raise_ValidationError :
  fst (get_level (open_root Samples.channel_store) 5) = Py.Raise Py.KeyError
  /\ fst (get_level (open_root Samples.channel_store) (-1))
     = Py.Raise Py.KeyError
  /\ fst (get_level (open_root Samples.channel_store) 5)
     <> Py.Raise Py.ValidationError.
Proof. vm_compute. repeat split. discriminate. Qed.

End Accessor.

(** * Further properties of the notebooks' code *)

(** ** The point container *)

Section VectorContainer.

Import Itk.

(** X1.  [InsertElement] stores the element at its identifier, grows the
    container to hold it when needed, fills the gap with default elements
    and leaves every other slot as it was. *)
Theorem InsertElement_lookup {A : Type} (dflt : A) (c : list A) (id : nat)
  (x : A) :
  length (InsertElement dflt c id x) = Nat.max (length c) (S id)
  /\ InsertElement dflt c id x !! id = Some x
  /\ (forall j : nat,
        j <> id -> (j < length c)%nat ->
        InsertElement dflt c id x !! j = c !! j)
  /\ (forall j : nat,
        (length c <= j < id)%nat ->
        InsertElement dflt c id x !! j = Some dflt).
Proof.
  unfold InsertElement.
  destruct (decide (id < length c)%nat) as [Hlt | Hge].
  - repeat split.
    + rewrite length_insert. lia.
    + now apply list_lookup_insert_eq.
    + intros j Hj _. apply list_lookup_insert_ne. congruence.
    + intros j Hj. lia.
  - repeat split.
    + rewrite !length_app, length_replicate. simpl. lia.
    + rewrite lookup_app_r by lia.
      rewrite lookup_app_r by (rewrite length_replicate; lia).
      rewrite length_replicate, Nat.sub_diag. reflexivity.
    + intros j _ Hj. now apply lookup_app_l.
    + intros j Hj. rewrite lookup_app_r by lia.
      rewrite lookup_app_l by (rewrite length_replicate; lia).
      apply lookup_replicate. split; [reflexivity | lia].
Qed.

End VectorContainer.

(** ** Loading the markup: success and failure *)

Section LoadingCases.

Import Itk PointNotebook.





Lemma load_loop_raises (good : list Json.value) (bad : Json.value)
  (rest : list Json.value) (pts acc : PointSet) (e : Py.exn) :
  Forall2 (fun cp p => position_of cp = Py.Ok p) good pts ->
  position_of bad = Py.Raise e ->
  Py.for_each load_point
    (combine (seq (length acc) (length (good ++ bad :: rest)))
       (good ++ bad :: rest)) acc
  = Py.Raise e.
Proof.
  intros Hgood Hbad. revert acc.
  induction Hgood as [| cp p good pts Hcp _ IH]; intros acc.
  - cbn [app length seq combine Py.for_each].
    unfold load_point. unfold position_of in Hbad.
    destruct (Json.getitem_key bad "position") as [pos |];
      cbn [Py.bind] in *; [| congruence].
    now rewrite Hbad.
  - cbn [app length seq combine Py.for_each].
    rewrite (load_point_appends _ _ _ Hcp). cbn [Py.bind].
    replace (S (length acc)) with (length (acc ++ [p]))
      by (rewrite length_app; simpl; lia).
    apply IH.
Qed.

(** X3.  The first control point of group 0 in which [point["position"]]
    cannot be read decides the outcome: the load raises the error of that
    subscript (a [KeyError] when the control point is an object without the
    key), whatever points were read before it and whatever follows. *)
Theorem load_points_raises_at_first_bad_point
  (top : list (string * Json.value)) (markup0 : Json.value)
  (others good : list Json.value) (bad : Json.value)
  (rest : list Json.value) (pts : PointSet) (e : Py.exn) :
  Json.assoc "markups" top = Some (Json.JArr (markup0 :: others)) ->
  Json.getitem_key markup0 "controlPoints"
  = Py.Ok (Json.JArr (good ++ bad :: rest)) ->
  Forall2 (fun cp p => position_of cp = Py.Ok p) good pts ->
  Json.getitem_key bad "position" = Py.Raise e ->
  load_points (Json.JObj top) = Py.Raise e.
Proof.
  intros Hm Hc Hgood Hbad.
  unfold load_points, Json.getitem_key at 1. rewrite Hm.
  cbn [Py.bind Json.getitem_idx lookup list_lookup]. rewrite Hc.
  cbn [Py.bind Json.iter]. unfold Py.enumerate.
  apply (load_loop_raises good bad rest pts [] e Hgood).
  unfold position_of. now rewrite Hbad.
Qed.

Lemma load_points_raises_at_first_bad_point_witness :
  load_points Cases.markup_without_position = Py.Raise Py.KeyError.
Proof.
  eapply (load_points_raises_at_first_bad_point _ _ []
            [Samples.control_point "F-1" (1 # 1) (2 # 1) (3 # 1)]
            (Json.JObj [("label", Json.JStr "F-2")])
            [Samples.control_point "F-3" (4 # 1) (5 # 1) (6 # 1)]).
  - reflexivity.
  - reflexivity.
  - repeat constructor.
  - reflexivity.
Defined.

End LoadingCases.

(** ** The parameter chain: any number of stages, unreadable files *)

Section ParameterChainCases.

Import PointNotebook.

Variable ParameterMap : Type.
Variable parse_parameter_file : string -> Py.res ParameterMap.

Lemma add_stage_inv (st st' : list ParameterMap * list ParameterMap)
  (f : string) :
  add_stage ParameterMap parse_parameter_file st f = Py.Ok st' ->
  exists m : ParameterMap,
    parse_parameter_file f = Py.Ok m /\ st' = (fst st ++ [m], [m]).
Proof.
  destruct st as [toplevel param]. unfold add_stage, ReadParameterFile.
  destruct (parse_parameter_file f) as [m |]; cbn; [| discriminate].
  intros H. injection H as <-. now exists m.
Qed.

Lemma add_stages_inv (files : list string)
  (st st' : list ParameterMap * list ParameterMap) :
  Py.for_each (add_stage ParameterMap parse_parameter_file) files st
  = Py.Ok st' ->
  exists ms : list ParameterMap,
    Forall2 (fun f m => parse_parameter_file f = Py.Ok m) files ms
    /\ fst st' = fst st ++ ms.
Proof.
  revert st. induction files as [| f files IH]; intros st.
  - simpl. intros H. injection H as <-. exists []. split; [constructor |].
    now rewrite app_nil_r.
  - cbn [Py.for_each].
    destruct (add_stage ParameterMap parse_parameter_file st f)
      as [st1 |] eqn:Hf; cbn [Py.bind]; [| discriminate].
    apply add_stage_inv in Hf as (m & Hm & ->).
    intros H. apply IH in H as (ms & Hms & ->).
    exists (m :: ms). split; [now constructor |].
    cbn [fst]. now rewrite <- app_assoc.
Qed.

(** X4.  For any number of stage files, the chain is built exactly when
    every file can be read, and it is then the list of their parameter maps
    in file order: reusing the one [param] object for every file loses
    nothing. *)
Theorem build_parameter_chain_succeeds_iff (files : list string)
  (chain : list ParameterMap) :
  build_parameter_chain ParameterMap parse_parameter_file files
  = Py.Ok chain
  <-> Forall2 (fun f m => parse_parameter_file f = Py.Ok m) files chain.
Proof.
  split.
  - unfold build_parameter_chain.
    destruct (Py.for_each (add_stage ParameterMap parse_parameter_file)
                files ([], [])) as [st |] eqn:Hloop;
      cbn [Py.bind]; [| discriminate].
    apply add_stages_inv in Hloop as (ms & Hms & Hst).
    destruct st as [toplevel param]. cbn [fst app] in *.
    intros H. injection H as <-. now subst toplevel.
  - apply build_parameter_chain_maps.
Qed.

Lemma add_stages_raises (good : list string) (bad : string)
  (rest : list string) (ms : list ParameterMap) (e : Py.exn) :
  Forall2 (fun f m => parse_parameter_file f = Py.Ok m) good ms ->
  parse_parameter_file bad = Py.Raise e ->
  forall st : list ParameterMap * list ParameterMap,
    Py.for_each (add_stage ParameterMap parse_parameter_file)
      (good ++ bad :: rest) st
    = Py.Raise e.
Proof.
  intros Hgood Hbad.
  induction Hgood as [| f m good ms Hf _ IH]; intros [toplevel param].
  - cbn [app Py.for_each]. unfold add_stage, ReadParameterFile.
    now rewrite Hbad.
  - cbn [app Py.for_each]. rewrite (add_stage_pushes _ _ _ _ _ _ Hf).
    cbn [Py.bind]. apply IH.
Qed.

(** X5.  The first stage file that cannot be read stops the loop: the
    error of that file is raised and no chain is returned, however many
    files were read before it. *)
Theorem build_parameter_chain_raises_at_first_bad_file (good : list string)
  (bad : string) (rest : list string) (ms : list ParameterMap)
  (e : Py.exn) :
  Forall2 (fun f m => parse_parameter_file f = Py.Ok m) good ms ->
  parse_parameter_file bad = Py.Raise e ->
  build_parameter_chain ParameterMap parse_parameter_file
    (good ++ bad :: rest)
  = Py.Raise e.
Proof.
  intros Hgood Hbad. unfold build_parameter_chain.
  now rewrite (add_stages_raises good bad rest ms e Hgood Hbad).
Qed.

End ParameterChainCases.

Lemma build_parameter_chain_raises_at_first_bad_file_witness :
  PointNotebook.build_parameter_chain nat Samples.toy_parse
    Cases.files_with_missing_stage
  = Py.Raise Py.RuntimeError.
Proof.
  apply (build_parameter_chain_raises_at_first_bad_file nat Samples.toy_parse
           ["../data/demo_registration_results_631680/elastix-transform0.txt"]
           "../data/demo_registration_results_631680/elastix-transform7.txt"
           ["../data/demo_registration_results_631680/elastix-transform2.txt"]
           [0%nat]).
  - repeat constructor.
  - reflexivity.
Defined.

(** ** The slices of a result row *)

Section SliceCases.

Import PointNotebook.

Lemma slice_lookup {A : Type} (a b : nat) (l : list A) (i : nat) :
  Py.slice a b l !! i
  = if decide (i < b - a)%nat then l !! (a + i)%nat else None.
Proof.
  unfold Py.slice. rewrite lookup_take.
  destruct (decide (i < b - a)%nat); [apply lookup_drop | reflexivity].
Qed.

(** X6.  The two slices never fail: element [i] of the input slice is field
    [11 + i] of the row for [i < 7], element [i] of the output slice is field
    [27 + i] for [i < 8], and where the row has no such field the slice just
    ends, so that a row of fewer than 12 fields gives two empty slices. *)
Theorem result_slices_clip {A : Type} (output_point : list A) :
  (forall i : nat,
      input_fields output_point !! i
      = if decide (i < 7)%nat then output_point !! (11 + i)%nat else None)
  /\ (forall i : nat,
        output_fields output_point !! i
        = if decide (i < 8)%nat then output_point !! (27 + i)%nat else None)
  /\ ((length output_point < 12)%nat ->
      input_fields output_point = [] /\ output_fields output_point = []).
Proof.
  unfold input_fields, output_fields. repeat split.
  - intros i. apply slice_lookup.
  - intros i. apply slice_lookup.
  - unfold Py.slice. rewrite drop_ge by lia. apply take_nil.
  - unfold Py.slice. rewrite drop_ge by lia. apply take_nil.
Qed.

End SliceCases.

(** ** The store cache: what a read returns and what it keeps *)

Section CacheReads.

Import Zarr FetchNotebook CacheStates.

Lemma lookup_app (key : string) (d1 d2 : list (string * Value)) :
  lookup key (d1 ++ d2)
  = match lookup key d1 with
    | Some v => Some v
    | None => lookup key d2
    end.
Proof.
  induction d1 as [| [k v] d1 IH]; [reflexivity |].
  cbn [app lookup]. now destruct (String.eqb key k).
Qed.

Lemma lookup_Some_key (key : string) (v : Value)
  (d : list (string * Value)) :
  lookup key d = Some v -> key ∈ keys d.
Proof.
  induction d as [| [k w] d IH]; [discriminate |].
  cbn [lookup]. change (keys ((k, w) :: d)) with (k :: keys d).
  destruct (String.eqb_spec key k) as [-> | Hne]; intros H.
  - apply elem_of_cons. now left.
  - apply elem_of_cons. right. now apply IH.
Qed.

Lemma lookup_remove_key_ne (k key : string) (d : list (string * Value)) :
  k <> key -> lookup k (remove_key key d) = lookup k d.
Proof.
  intros Hne. unfold remove_key.
  induction d as [| [k' v] d IH]; [reflexivity |].
  cbn [List.filter fst lookup].
  destruct (String.eqb_spec key k') as [<- | Hk]; cbn [negb lookup].
  - destruct (String.eqb_spec k key); [congruence | exact IH].
  - now rewrite IH.
Qed.

Lemma lookup_remove_key_eq (key : string) (d : list (string * Value)) :
  lookup key (remove_key key d) = None.
Proof.
  destruct (lookup key (remove_key key d)) as [u |] eqn:Hu; [| reflexivity].
  apply lookup_Some_key in Hu.
  now apply remove_key_subset in Hu as [_ Hu].
Qed.

Lemma lookup_singleton (k key : string) (v : Value) :
  lookup k [(key, v)] = if String.eqb k key then Some v else None.
Proof. reflexivity. Qed.

Lemma contains_key_lookup (key : string) (d : list (string * Value)) :
  contains_key key (keys d) = true ->
  exists v : Value, lookup key d = Some v.
Proof.
  unfold contains_key.
  induction d as [| [k v] d IH]; [discriminate |].
  cbn [keys map fst existsb lookup].
  destruct (String.eqb key k); [now exists v | exact IH].
Qed.

Lemma total_size_nonneg (d : list (string * Value)) : (0 <= total_size d)%Z.
Proof.
  induction d as [| [k v] d IH]; cbn [total_size]; [lia |].
  pose proof (buffer_size_nonneg v). lia.
Qed.

Lemma cached_value_fits (key : string) (v : Value)
  (d : list (string * Value)) :
  lookup key d = Some v -> (buffer_size v <= total_size d)%Z.
Proof.
  induction d as [| [k w] d IH]; [discriminate |].
  cbn [lookup total_size].
  destruct (String.eqb key k); intros H.
  - injection H as ->. pose proof (total_size_nonneg d). lia.
  - specialize (IH H). pose proof (buffer_size_nonneg w). lia.
Qed.

(** Making room drops the least recently used values and no more of them
    than needed. *)
Lemma accommodate_value_minimal (max value_size : Z)
  (values : list (string * Value)) :
  (0 <= value_size <= max)%Z ->
  exists (dropped kept : list (string * Value)),
    values = dropped ++ kept
    /\ accommodate_value max value_size values (total_size values)
       = (Py.Ok tt, (kept, total_size kept))
    /\ (total_size kept + value_size <= max)%Z
    /\ forall (dropped' : list (string * Value)) (x : string * Value),
         dropped = dropped' ++ [x] ->
         (total_size (x :: kept) + value_size > max)%Z.
Proof.
  intros Hsize.
  induction values as [| [k v] values IH].
  - exists [], []. cbn.
    destruct (Z.gtb_spec (0 + value_size) max) as [Hgt | Hle]; [lia |].
    repeat split; try lia.
    intros [| ? ?] x H; discriminate H.
  - cbn [accommodate_value total_size].
    destruct (Z.gtb_spec (buffer_size v + total_size values + value_size) max)
      as [Hgt | Hle].
    + destruct IH as (dropped & kept & -> & Hacc & Hfit & Hmin).
      exists ((k, v) :: dropped), kept. repeat split; [| exact Hfit |].
      * replace
          (buffer_size v + total_size (dropped ++ kept) - buffer_size v)%Z
          with (total_size (dropped ++ kept)) by lia.
        exact Hacc.
      * intros dropped' x Hx.
        destruct dropped' as [| y dropped'].
        -- destruct dropped as [| ? ?]; [| destruct dropped; discriminate Hx].
           injection Hx as <-. cbn [app total_size] in *. lia.
        -- injection Hx as _ Hx. now apply (Hmin dropped').
    + exists [], ((k, v) :: values). repeat split; [exact Hle |].
      intros [| ? ?] x H; discriminate H.
Qed.

Lemma getitem_hit (c : LRUStoreCache) (key : string) (v : Value) :
  lookup key (values_cache c) = Some v ->
  getitem c key
  = (Py.Ok v,
     mkCache (store c) (max_size c) (current_size c) (contains_cache c)
       (remove_key key (values_cache c) ++ [(key, v)])
       (S (hits c)) (misses c)).
Proof. unfold getitem. now intros ->. Qed.

Lemma getitem_absent (c : LRUStoreCache) (key : string) :
  lookup key (values_cache c) = None ->
  lookup key (store c) = None ->
  getitem c key = (Py.Raise Py.KeyError, c).
Proof. unfold getitem. now intros -> ->. Qed.

Lemma getitem_oversized (c : LRUStoreCache) (key : string) (v : Value) :
  lookup key (values_cache c) = None ->
  lookup key (store c) = Some v ->
  (max_size c < buffer_size v)%Z ->
  getitem c key = (Py.Ok v, count_miss c).
Proof.
  unfold getitem, cache_value. intros -> -> Hbig.
  cbn [max_size]. destruct (Z.leb_spec (buffer_size v) (max_size c)); [lia |].
  reflexivity.
Qed.

Lemma getitem_miss (c : LRUStoreCache) (key : string) (v : Value) :
  cache_ok c ->
  lookup key (values_cache c) = None ->
  lookup key (store c) = Some v ->
  (buffer_size v <= max_size c)%Z ->
  exists (dropped kept : list (string * Value)),
    values_cache c = dropped ++ kept
    /\ getitem c key
       = (Py.Ok v,
          mkCache (store c) (max_size c) (total_size kept + buffer_size v)
            (contains_cache c) (kept ++ [(key, v)])
            (hits c) (S (misses c)))
    /\ (total_size kept + buffer_size v <= max_size c)%Z
    /\ forall (dropped' : list (string * Value)) (x : string * Value),
         dropped = dropped' ++ [x] ->
         (total_size (x :: kept) + buffer_size v > max_size c)%Z.
Proof.
  intros (Hsize & _ & _) Hc Hs Hfit.
  destruct (accommodate_value_minimal (max_size c) (buffer_size v)
              (values_cache c))
    as (dropped & kept & Hsplit & Hacc & Hroom & Hmin).
  { pose proof (buffer_size_nonneg v). lia. }
  exists dropped, kept. repeat split; try assumption.
  unfold getitem, cache_value. rewrite Hc, Hs.
  cbn [max_size values_cache current_size].
  destruct (Z.leb_spec (buffer_size v) (max_size c)); [| lia].
  rewrite Hsize, Hacc. reflexivity.
Qed.

(** A read keeps the cached values among the values of the store. *)
Lemma getitem_agrees (c : LRUStoreCache) (key : string) :
  cache_ok c -> agrees c -> agrees (snd (getitem c key)).
Proof.
  intros Hok Hag.
  destruct (lookup key (values_cache c)) as [v |] eqn:Hc.
  - rewrite (getitem_hit c key v Hc). intros k w. cbn [snd values_cache store].
    rewrite lookup_app.
    destruct (String.eqb_spec k key) as [-> | Hne].
    + rewrite lookup_remove_key_eq, lookup_singleton, String.eqb_refl.
      intros H. injection H as <-. now apply Hag.
    + rewrite lookup_remove_key_ne by exact Hne.
      destruct (lookup k (values_cache c)) as [u |] eqn:Hk.
      * intros H. injection H as <-. now apply Hag.
      * rewrite lookup_singleton.
        destruct (String.eqb_spec k key); [congruence | discriminate].
  - destruct (lookup key (store c)) as [v |] eqn:Hs.
    + destruct (Z.leb_spec (buffer_size v) (max_size c)) as [Hfit | Hbig].
      * destruct (getitem_miss c key v Hok Hc Hs Hfit)
          as (dropped & kept & Hsplit & -> & _).
        intros k w. cbn [snd values_cache store]. rewrite lookup_app.
        destruct (lookup k kept) as [u |] eqn:Hk.
        -- intros H. injection H as <-. apply Hag. rewrite Hsplit, lookup_app.
           destruct (lookup k dropped) as [u' |] eqn:Hd; [| exact Hk].
           exfalso. destruct Hok as (_ & _ & Hnd).
           rewrite Hsplit, keys_app in Hnd.
           apply NoDup_app in Hnd as (_ & Hdisj & _).
           apply (Hdisj k); [now apply lookup_Some_key in Hd |].
           now apply lookup_Some_key in Hk.
        -- rewrite lookup_singleton.
           destruct (String.eqb_spec k key) as [-> | _]; [| discriminate].
           intros H. now injection H as <-.
      * now rewrite (getitem_oversized c key v Hc Hs Hbig).
    + now rewrite (getitem_absent c key Hc Hs).
Qed.

Lemma open_root_agrees (s : Store) : agrees (open_root s).
Proof.
  rewrite open_root_unfold. apply getitem_agrees.
  - repeat split; cbn; [discriminate | constructor].
  - intros k v H. discriminate H.
Qed.

Lemma run_agrees (s : Store) (reads : list string) :
  agrees (run (open_root s) reads).
Proof.
  induction reads as [| key reads IH] using rev_ind;
    [apply open_root_agrees |].
  rewrite run_snoc. apply getitem_agrees; [| exact IH].
  apply run_cache_ok, open_root_cache_ok.
Qed.

Lemma run_store (s : Store) (reads : list string) :
  store (run (open_root s) reads) = s.
Proof.
  destruct (run_frame (open_root s) reads) as (-> & _).
  now destruct (open_root_frame s) as (-> & _).
Qed.

Lemma run_max_size (s : Store) (reads : list string) :
  max_size (run (open_root s) reads) = MAX_SIZE.
Proof.
  destruct (run_frame (open_root s) reads) as (_ & -> & _).
  now destruct (open_root_frame s) as (_ & -> & _).
Qed.

(** A membership test after a run. *)
Lemma run_contains (s : Store) (reads : list string) (key : string) :
  contains (run (open_root s) reads) key
  = (contains_key key (keys s), run (open_root s) reads).
Proof.
  destruct (run_frame (open_root s) reads) as (_ & _ & Hcc).
  destruct (open_root_frame s) as (_ & _ & Hc0).
  unfold contains. now rewrite Hcc, Hc0.
Qed.

(** A read of a stored key after a run. *)
Lemma run_getitem_stored (s : Store) (reads : list string) (key : string)
  (v : Value) :
  lookup key s = Some v ->
  fst (getitem (run (open_root s) reads) key) = Py.Ok v.
Proof.
  intros Hs.
  pose proof (run_agrees s reads) as Hag.
  pose proof (run_cache_ok (open_root s) reads (open_root_cache_ok s)) as Hok.
  rewrite <- (run_store s reads) in Hs.
  destruct (lookup key (values_cache (run (open_root s) reads)))
    as [u |] eqn:Hc.
  - rewrite (getitem_hit _ key u Hc). cbn [fst].
    apply Hag in Hc. rewrite Hs in Hc. now injection Hc as ->.
  - destruct (Z.leb_spec (buffer_size v)
                (max_size (run (open_root s) reads))) as [Hfit | Hbig].
    + now destruct (getitem_miss _ key v Hok Hc Hs Hfit)
        as (dropped & kept & _ & -> & _).
    + now rewrite (getitem_oversized _ key v Hc Hs Hbig).
Qed.

(** X9.  The cache is transparent: after any run of reads, a read through
    the cache answers what the store itself answers (the stored value, or
    [KeyError] for a key the store does not hold), and a membership test
    answers by the key listing of the store and leaves the cache as it is. *)
Theorem cache_is_transparent (s : Store) (reads : list string)
  (key : string) :
  fst (getitem (run (open_root s) reads) key) = store_answer s key
  /\ contains (run (open_root s) reads) key
     = (contains_key key (keys s), run (open_root s) reads).
Proof.
  pose proof (run_agrees s reads) as Hag.
  pose proof (run_cache_ok (open_root s) reads (open_root_cache_ok s)) as Hok.
  pose proof (run_store s reads) as Hst.
  set (c := run (open_root s) reads) in *.
  split.
  - unfold store_answer.
    destruct (lookup key (values_cache c)) as [v |] eqn:Hc.
    + rewrite (getitem_hit c key v Hc). cbn [fst].
      apply Hag in Hc. rewrite Hst in Hc. now rewrite Hc.
    + rewrite <- Hst.
      destruct (lookup key (store c)) as [v |] eqn:Hs.
      * destruct (Z.leb_spec (buffer_size v) (max_size c)) as [Hfit | Hbig].
        -- now destruct (getitem_miss c key v Hok Hc Hs Hfit)
             as (dropped & kept & _ & -> & _).
        -- now rewrite (getitem_oversized c key v Hc Hs Hbig).
      * now rewrite (getitem_absent c key Hc Hs).
  - destruct (run_frame (open_root s) reads) as (_ & _ & Hcc).
    destruct (open_root_frame s) as (_ & _ & Hc0).
    unfold contains. fold c in Hcc. now rewrite Hcc, Hc0.
Qed.

End CacheReads.

(** ** The store cache: recency, oversized values, eviction *)

Section CacheOrder.

Import Zarr FetchNotebook CacheStates.

Lemma remove_key_app (key : string) (d1 d2 : list (string * Value)) :
  remove_key key (d1 ++ d2) = remove_key key d1 ++ remove_key key d2.
Proof. unfold remove_key. apply List.filter_app. Qed.

Lemma remove_key_last (key : string) (v : Value)
  (d : list (string * Value)) :
  key ∉ keys d ->
  (remove_key key (d ++ [(key, v)]) ++ [(key, v)]) = (d ++ [(key, v)]).
Proof.
  intros Hk. rewrite remove_key_app, (remove_key_absent key d Hk).
  unfold remove_key. cbn [List.filter fst]. rewrite String.eqb_refl.
  cbn [negb]. now rewrite app_nil_r.
Qed.

Lemma lookup_last (key : string) (v : Value) (d : list (string * Value)) :
  key ∉ keys d -> lookup key (d ++ [(key, v)]) = Some v.
Proof.
  intros Hk. rewrite lookup_app.
  destruct (lookup key d) as [u |] eqn:Hu.
  - apply lookup_Some_key in Hu. contradiction.
  - now rewrite lookup_singleton, String.eqb_refl.
Qed.

(** After a read of a value that fits, the cached values end with it. *)
Lemma getitem_most_recent (c : LRUStoreCache) (key : string) (v : Value) :
  cache_ok c -> agrees c ->
  lookup key (store c) = Some v ->
  (buffer_size v <= max_size c)%Z ->
  exists older : list (string * Value),
    (key ∉ keys older)
    /\ values_cache (snd (getitem c key)) = older ++ [(key, v)].
Proof.
  intros Hok Hag Hs Hfit.
  destruct (lookup key (values_cache c)) as [u |] eqn:Hc.
  - assert (u = v) by (apply Hag in Hc; congruence). subst u.
    rewrite (getitem_hit c key v Hc). cbn [snd values_cache].
    exists (remove_key key (values_cache c)). split; [| reflexivity].
    intros Hin. now apply remove_key_subset in Hin as [_ Hin].
  - destruct (getitem_miss c key v Hok Hc Hs Hfit)
      as (dropped & kept & Hsplit & -> & _).
    cbn [snd values_cache]. exists kept. split; [| reflexivity].
    apply lookup_None_not_key in Hc. rewrite Hsplit, keys_app in Hc.
    intros Hin. apply Hc, elem_of_app. now right.
Qed.

(** X10.  After any run, reading a stored value that fits the cache leaves
    it cached as the most recently used entry, and reading it again at once
    is a hit that returns the same value and changes nothing but the hit
    counter. *)
Theorem read_value_is_most_recent (s : Store) (reads : list string)
  (key : string) (v : Value) :
  lookup key s = Some v ->
  (buffer_size v <= MAX_SIZE)%Z ->
  let c1 := snd (getitem (run (open_root s) reads) key) in
  last (values_cache c1) = Some (key, v)
  /\ getitem c1 key = (Py.Ok v, count_hit c1).
Proof.
  intros Hs Hfit. cbv zeta.
  pose proof (run_agrees s reads) as Hag.
  pose proof (run_cache_ok (open_root s) reads (open_root_cache_ok s)) as Hok.
  pose proof (run_store s reads) as Hst.
  pose proof (run_max_size s reads) as Hmax.
  set (c := run (open_root s) reads) in *.
  rewrite <- Hst in Hs. rewrite <- Hmax in Hfit.
  destruct (getitem_most_recent c key v Hok Hag Hs Hfit)
    as (older & Hk & Hvals).
  split.
  - rewrite Hvals. apply last_snoc.
  - rewrite (getitem_hit _ key v) by (rewrite Hvals; now apply lookup_last).
    unfold count_hit. rewrite Hvals.
    now rewrite (remove_key_last key v older Hk).
Qed.

Lemma read_value_is_most_recent_witness :
  let c1 :=
    snd (getitem (run (open_root Samples.channel_store) []) Samples.chunk_a)
  in
  last (values_cache c1) = Some (Samples.chunk_a, mkValue (2 ^ 27 + 1) [7; 8]%Z)
  /\ getitem c1 Samples.chunk_a
     = (Py.Ok (mkValue (2 ^ 27 + 1) [7; 8]%Z), count_hit c1).
Proof.
  apply (read_value_is_most_recent Samples.channel_store [] Samples.chunk_a).
  - reflexivity.
  - vm_compute. discriminate.
Defined.

(** X11.  A stored value larger than the whole cache is returned but never
    cached: after any run, reading it counts one miss and leaves the cached
    values and their recorded size untouched. *)
Theorem oversized_value_is_never_cached (s : Store) (reads : list string)
  (key : string) (v : Value) :
  lookup key s = Some v ->
  (MAX_SIZE < buffer_size v)%Z ->
  getitem (run (open_root s) reads) key
  = (Py.Ok v, count_miss (run (open_root s) reads)).
Proof.
  intros Hs Hbig.
  pose proof (run_agrees s reads) as Hag.
  destruct (run_cache_ok (open_root s) reads (open_root_cache_ok s))
    as (Hsize & Hle & _).
  pose proof (run_store s reads) as Hst.
  pose proof (run_max_size s reads) as Hmax.
  set (c := run (open_root s) reads) in *.
  rewrite <- Hst in Hs. rewrite <- Hmax in Hbig.
  apply getitem_oversized; [| exact Hs | exact Hbig].
  destruct (lookup key (values_cache c)) as [u |] eqn:Hc; [| reflexivity].
  exfalso. pose proof (cached_value_fits key u _ Hc) as Hu.
  apply Hag in Hc. rewrite Hs in Hc. injection Hc as ->. lia.
Qed.

Lemma oversized_value_is_never_cached_witness :
  getitem (run (open_root BigStore.store_with_big_chunk) ["0/.zarray"])
    BigStore.big_chunk
  = (Py.Ok (mkValue (2 ^ 28 + 1) [1; 2; 3]%Z),
     count_miss
       (run (open_root BigStore.store_with_big_chunk) ["0/.zarray"])).
Proof.
  apply (oversized_value_is_never_cached BigStore.store_with_big_chunk
           ["0/.zarray"] BigStore.big_chunk).
  - reflexivity.
  - vm_compute. reflexivity.
Defined.

(** X12.  Eviction is least-recently-used first and minimal: when a value
    that fits is read for the first time, the cache drops a leading run of
    its entries, keeps the rest in order, appends the new value, and drops
    no entry it could have kept (with the last dropped entry the new value
    would not fit). *)
Theorem miss_evicts_least_recent_only (s : Store) (reads : list string)
  (key : string) (v : Value) :
  lookup key (values_cache (run (open_root s) reads)) = None ->
  lookup key s = Some v ->
  (buffer_size v <= MAX_SIZE)%Z ->
  exists (dropped kept : list (string * Value)),
    values_cache (run (open_root s) reads) = dropped ++ kept
    /\ values_cache (snd (getitem (run (open_root s) reads) key))
       = kept ++ [(key, v)]
    /\ (total_size kept + buffer_size v <= MAX_SIZE)%Z
    /\ forall (dropped' : list (string * Value)) (x : string * Value),
         dropped = dropped' ++ [x] ->
         (total_size (x :: kept) + buffer_size v > MAX_SIZE)%Z.
Proof.
  intros Hc Hs Hfit.
  pose proof (run_cache_ok (open_root s) reads (open_root_cache_ok s)) as Hok.
  pose proof (run_store s reads) as Hst.
  pose proof (run_max_size s reads) as Hmax.
  set (c := run (open_root s) reads) in *.
  rewrite <- Hst in Hs. rewrite <- Hmax in *.
  destruct (getitem_miss c key v Hok Hc Hs Hfit)
    as (dropped & kept & Hsplit & -> & Hroom & Hmin).
  now exists dropped, kept.
Qed.

Lemma miss_evicts_least_recent_only_witness :
  exists (dropped kept : list (string * Value)),
    values_cache (run (open_root Samples.channel_store) [Samples.chunk_a])
    = dropped ++ kept
    /\ values_cache
         (snd (getitem
                 (run (open_root Samples.channel_store) [Samples.chunk_a])
                 Samples.chunk_b))
       = kept ++ [(Samples.chunk_b, mkValue (2 ^ 27 + 1) [9; 10]%Z)]
    /\ (total_size kept + buffer_size (mkValue (2 ^ 27 + 1) [9; 10]%Z)
        <= MAX_SIZE)%Z
    /\ forall (dropped' : list (string * Value)) (x : string * Value),
         dropped = dropped' ++ [x] ->
         (total_size (x :: kept)
          + buffer_size (mkValue (2 ^ 27 + 1) [9; 10]%Z) > MAX_SIZE)%Z.
Proof.
  apply (miss_evicts_least_recent_only Samples.channel_store
           [Samples.chunk_a] Samples.chunk_b).
  - reflexivity.
  - reflexivity.
  - vm_compute. discriminate.
Defined.

(** X13.  In a store holding a pyramid of [numLevels] levels, every index
    inside [0, numLevels) makes [root[i]] return the array at path [str(i)]
    with the metadata object the store holds for it, after any run. *)
Theorem get_level_in_range_returns_array (s : Store) (numLevels : Z)
  (reads : list string) (i : Z) :
  pyramid_levels s numLevels ->
  (0 <= i < numLevels)%Z ->
  exists meta : Value,
    lookup (str_of_Z i ++ "/" ++ array_meta_key)%string s = Some meta
    /\ fst (get_level (run (open_root s) reads) i)
       = Py.Ok (IsArray (mkZArray (str_of_Z i) meta)).
Proof.
  intros [Hlevels _] Hi.
  specialize (Hlevels i Hi). unfold has_array in Hlevels.
  destruct (contains_key_lookup _ _ Hlevels) as [meta Hmeta].
  exists meta. split; [exact Hmeta |].
  pose proof (run_getitem_stored s reads _ meta Hmeta) as Hget.
  unfold get_level, Group_getitem. rewrite run_contains, Hlevels.
  cbv beta iota zeta.
  destruct (getitem (run (open_root s) reads)
              (str_of_Z i ++ "/" ++ array_meta_key)%string) as [r c'].
  cbn [fst] in Hget. now subst r.
Qed.

Lemma get_level_in_range_returns_array_witness :
  exists meta : Value,
    lookup (str_of_Z 4 ++ "/" ++ array_meta_key)%string Samples.channel_store
    = Some meta
    /\ fst (get_level (run (open_root Samples.channel_store)
                         [Samples.chunk_a]) 4)
       = Py.Ok (IsArray (mkZArray (str_of_Z 4) meta)).
Proof.
  apply (get_level_in_range_returns_array Samples.channel_store 5
           [Samples.chunk_a] 4).
  - exact channel_store_levels.
  - lia.
Defined.

End CacheOrder.

(** ** Orientation codes, permutations and flips *)

Section OrientationCases.

Import Itk ItkImage FetchNotebook.

(** X14.  The packed orientation code loses nothing: the 4-bit field of
    each axis gives back the term it was built from, and two different
    orientations never share a code. *)
Theorem orientation_code_fields_round_trip :
  (forall p s t : CoordinateTerms,
      axis_code (orientation_code p s t) D0 = term_code p
      /\ axis_code (orientation_code p s t) D1 = term_code s
      /\ axis_code (orientation_code p s t) D2 = term_code t)
  /\ (forall a b : ValidCoordinateOrientations,
        code_value a = code_value b -> a = b).
Proof.
  split.
  - intros p s t. destruct p, s, t; vm_compute; repeat split.
  - intros a b. destruct a, b; vm_compute; intros H;
      first [reflexivity | discriminate H].
Qed.

(** X15.  For every pair of orientations the permute order is a
    permutation of the axes (two output axes never read the same input
    axis), and the input axis it picks for an output axis runs along the
    anatomical axis wanted there. *)
Theorem PermuteOrder_is_a_permutation
  (given desired : ValidCoordinateOrientations) :
  (forall j k : Dim,
      PermuteOrder (code_value desired) (code_value given) j
      = PermuteOrder (code_value desired) (code_value given) k ->
      j = k)
  /\ (forall j : Dim,
        same_axis
          (axis_code (code_value given)
             (PermuteOrder (code_value desired) (code_value given) j))
          (axis_code (code_value desired) j)
        = true).
Proof.
  split.
  - intros j k H.
    destruct (permute_flip_round_trip desired given j) as [Hj _].
    destruct (permute_flip_round_trip desired given k) as [Hk _].
    cbv zeta in Hj, Hk. rewrite <- Hj, <- Hk. now rewrite H.
  - intros j. destruct given, desired, j; reflexivity.
Qed.

Lemma same_orientation_is_identity (a : ValidCoordinateOrientations)
  (j : Dim) :
  PermuteOrder (code_value a) (code_value a) j = j
  /\ FlipAxes (code_value a) (code_value a) j = false.
Proof. destruct a, j; vm_compute; split; reflexivity. Qed.

(** X16.  Reconciling an image to the orientation it already has leaves
    spacing, direction and origin as they are (the origin as a point of
    rational coordinates); the region becomes the buffered region when the
    buffer holds pixels and stays otherwise, so that an image whose region
    is its buffered region is left unchanged. *)
Theorem reconcile_same_orientation (a : ValidCoordinateOrientations)
  (img : Image) :
  LargestPossibleRegion (Info (reconcile a a img))
  = (if (0 <? GetNumberOfPixels (BufferedRegion img))%nat
     then BufferedRegion img else LargestPossibleRegion (Info img))
  /\ Spacing (Info (reconcile a a img)) = Spacing (Info img)
  /\ Direction (Info (reconcile a a img)) = Direction (Info img)
  /\ Cases.point_eq (Origin (Info (reconcile a a img))) (Origin (Info img))
  /\ (LargestPossibleRegion (Info img) = BufferedRegion img ->
      LargestPossibleRegion (Info (reconcile a a img))
      = LargestPossibleRegion (Info img)).
Proof.
  assert (Hd : Direction (Info (reconcile a a img)) = Direction (Info img)).
  { rewrite direction_reconcile.
    transitivity (of_cols (col (Direction (Info img))));
      [| apply of_cols_col].
    apply of_cols_ext. intros j.
    now destruct (same_orientation_is_identity a j) as [-> ->]. }
  assert (Hr : LargestPossibleRegion (Info (reconcile a a img))
               = (if (0 <? GetNumberOfPixels (BufferedRegion img))%nat
                  then BufferedRegion img
                  else LargestPossibleRegion (Info img))).
  { rewrite reconcile_information.
    generalize (if (0 <? GetNumberOfPixels (BufferedRegion img))%nat
                then BufferedRegion img
                else LargestPossibleRegion (Info img)).
    intros [n0 n1 n2].
    unfold orient_output_information, flip_information, permute_information,
      vbuild.
    cbn [LargestPossibleRegion].
    destruct (same_orientation_is_identity a D0) as [-> _].
    destruct (same_orientation_is_identity a D1) as [-> _].
    destruct (same_orientation_is_identity a D2) as [-> _].
    reflexivity. }
  split; [exact Hr |].
  split; [| split; [exact Hd | split]].
  - rewrite reconcile_information.
    destruct (Spacing (Info img)) as [s0 s1 s2].
    unfold orient_output_information, flip_information, permute_information,
      vbuild.
    cbn [Spacing].
    destruct (same_orientation_is_identity a D0) as [-> _].
    destruct (same_orientation_is_identity a D1) as [-> _].
    destruct (same_orientation_is_identity a D2) as [-> _].
    reflexivity.
  - rewrite reconcile_information.
    destruct (Origin (Info img)) as [ox oy oz].
    unfold orient_output_information, flip_information, permute_information,
      flip_step.
    cbn [Origin].
    destruct (same_orientation_is_identity a D0) as [_ ->].
    destruct (same_orientation_is_identity a D1) as [_ ->].
    destruct (same_orientation_is_identity a D2) as [_ ->].
    unfold Cases.point_eq, add, origin_point. cbn [px py pz].
    repeat split; ring.
  - intros Hspan. rewrite Hr, Hspan.
    now destruct (0 <? GetNumberOfPixels (BufferedRegion img))%nat.
Qed.

Lemma reconcile_same_orientation_witness :
  LargestPossibleRegion (Info (reconcile RAI RAI Geometry.small_image))
  = LargestPossibleRegion (Info Geometry.small_image).
Proof.
  destruct (reconcile_same_orientation RAI Geometry.small_image)
    as (_ & _ & _ & _ & H).
  apply H. reflexivity.
Defined.

End OrientationCases.

(** ** Orientation: spacing and region there and back *)

Section InformationRoundTrip.

Import Itk ItkImage FetchNotebook.

(** X17.  For every pair of orientations, reconciling from A to B and back
    from B to A returns the spacing of the image.  The region does not make
    the round trip in general: each pass starts from the buffered region,
    which no pass changes, so that for an image whose buffer holds pixels
    the region ends as the buffered region in the axis order of the second
    pass (it is the region of the image again when that pass permutes
    nothing and the image spanned its buffer). *)
Theorem information_round_trip (a b : ValidCoordinateOrientations)
  (img : Image) :
  Spacing (Info (reconcile b a (reconcile a b img))) = Spacing (Info img)
  /\ ((0 < GetNumberOfPixels (BufferedRegion img))%nat ->
      LargestPossibleRegion (Info (reconcile b a (reconcile a b img)))
      = vbuild (fun j =>
          vget (BufferedRegion img)
            (PermuteOrder (code_value a) (code_value b) j)))
  /\ ((0 < GetNumberOfPixels (BufferedRegion img))%nat ->
      (forall j, PermuteOrder (code_value a) (code_value b) j = j) ->
      LargestPossibleRegion (Info img) = BufferedRegion img ->
      LargestPossibleRegion (Info (reconcile b a (reconcile a b img)))
      = LargestPossibleRegion (Info img)).
Proof.
  assert (Hregion :
    (0 < GetNumberOfPixels (BufferedRegion img))%nat ->
    LargestPossibleRegion (Info (reconcile b a (reconcile a b img)))
    = vbuild (fun j =>
        vget (BufferedRegion img)
          (PermuteOrder (code_value a) (code_value b) j))).
  { intros Hpix. rewrite reconcile_information.
    replace (BufferedRegion (reconcile a b img)) with (BufferedRegion img)
      by (unfold reconcile, CopyInformation; cbn [BufferedRegion];
          now destruct (UpdateOutputInformation_keeps img)
            as (_ & _ & _ & -> & _)).
    apply Nat.ltb_lt in Hpix. rewrite Hpix. reflexivity. }
  split; [| split; [exact Hregion |]].
  - rewrite !reconcile_information.
    unfold orient_output_information, flip_information, permute_information,
      vbuild.
    cbn [Spacing vget v0 v1 v2].
    destruct (permute_flip_round_trip a b D0) as [H0 _].
    destruct (permute_flip_round_trip a b D1) as [H1 _].
    destruct (permute_flip_round_trip a b D2) as [H2 _].
    cbv zeta in H0, H1, H2.
    destruct (Spacing (Info img)) as [s0 s1 s2].
    destruct (PermuteOrder (code_value a) (code_value b) D0),
      (PermuteOrder (code_value a) (code_value b) D1),
      (PermuteOrder (code_value a) (code_value b) D2);
      try congruence;
      cbn [vget v0 v1 v2] in *; rewrite ?H0, ?H1, ?H2; reflexivity.
  - intros Hpix Hid Hspan. rewrite (Hregion Hpix), Hspan.
    unfold vbuild. rewrite !Hid.
    now destruct (BufferedRegion img).
Qed.

Lemma information_round_trip_witness :
  LargestPossibleRegion
    (Info (reconcile SLA RIP (reconcile RIP SLA Geometry.small_image)))
  = mkV3 3 2 4%nat
  /\ LargestPossibleRegion
       (Info (reconcile LPS RAI (reconcile RAI LPS Geometry.small_image)))
     = LargestPossibleRegion (Info Geometry.small_image).
Proof.
  split.
  - destruct (information_round_trip RIP SLA Geometry.small_image)
      as (_ & H & _).
    rewrite H; [reflexivity | cbn; lia].
  - destruct (information_round_trip RAI LPS Geometry.small_image)
      as (_ & _ & H).
    apply H; [cbn; lia | intros j; now destruct j | reflexivity].
Defined.

End InformationRoundTrip.

(** ** The notebook's reorientation in physical space *)

Section Mirror.

Import Itk ItkImage FetchNotebook Geometry.

Lemma notebook_orientation_flips_all (j : Dim) :
  PermuteOrder (code_value DESIRED_COORDINATE_ORIENTATION)
    (code_value INPUT_COORDINATE_ORIENTATION) j = j
  /\ FlipAxes (code_value DESIRED_COORDINATE_ORIENTATION)
       (code_value INPUT_COORDINATE_ORIENTATION) j = true.
Proof. destruct j; vm_compute; split; reflexivity. Qed.

Lemma inject_Z_far_end (n : nat) (i : Z) :
  (1 <= n)%nat ->
  (inject_Z (Z.of_nat n - 1 - i)
   == inject_Z (Z.of_nat (n - 1)) - inject_Z i)%Q.
Proof.
  intros Hn. rewrite Nat2Z.inj_sub by exact Hn.
  unfold Z.sub. rewrite !inject_Z_plus, !inject_Z_opp. ring.
Qed.

(** X18.  The notebook's reconciliation (given RAI, desired LPS) permutes
    no axis and flips all three, about the far end of the buffered region.
    Since only the information is copied and the voxels stay where they
    are, the voxel at an index of an image whose buffer holds pixels is
    afterwards placed where the voxel at the mirrored index (counted from
    the far end of every axis of the buffer) was placed before. *)
Theorem notebook_reconcile_mirrors_positions (img : Image) (idx : V3 Z) :
  (1 <= v0 (BufferedRegion img))%nat ->
  (1 <= v1 (BufferedRegion img))%nat ->
  (1 <= v2 (BufferedRegion img))%nat ->
  Cases.point_eq
    (index_to_physical
       (Info (reconcile INPUT_COORDINATE_ORIENTATION
                DESIRED_COORDINATE_ORIENTATION img)) idx)
    (index_to_physical (Info img) (mirrored (BufferedRegion img) idx)).
Proof.
  intros H0 H1 H2. rewrite reconcile_information.
  assert (Hpix : (0 <? GetNumberOfPixels (BufferedRegion img))%nat = true).
  { apply Nat.ltb_lt. unfold GetNumberOfPixels.
    repeat apply Nat.mul_pos_pos; lia. }
  rewrite Hpix.
  destruct img as [[region [s0 s1 s2] [ox oy oz] d] [n0 n1 n2] pc].
  destruct idx as [i0 i1 i2].
  cbn [Info BufferedRegion Spacing Origin Direction v0 v1 v2] in *.
  unfold orient_output_information,
    index_to_physical, mirrored, flip_information, permute_information,
    flip_step, vbuild, Cases.point_eq.
  cbn [Info LargestPossibleRegion Spacing Origin Direction v0 v1 v2].
  rewrite !col_of_cols.
  destruct (notebook_orientation_flips_all D0) as [-> ->].
  destruct (notebook_orientation_flips_all D1) as [-> ->].
  destruct (notebook_orientation_flips_all D2) as [-> ->].
  cbn [vget v0 v1 v2].
  destruct (col d D0) as [x0 y0 z0], (col d D1) as [x1 y1 z1],
    (col d D2) as [x2 y2 z2].
  unfold add, scale. cbn [px py pz].
  rewrite (inject_Z_far_end n0 i0 H0), (inject_Z_far_end n1 i1 H1),
    (inject_Z_far_end n2 i2 H2).
  generalize (inject_Z (Z.of_nat (n0 - 1))), (inject_Z (Z.of_nat (n1 - 1))),
    (inject_Z (Z.of_nat (n2 - 1))), (inject_Z i0), (inject_Z i1),
    (inject_Z i2).
  intros k0 k1 k2 q0 q1 q2.
  repeat split; ring.
Qed.

Lemma notebook_reconcile_mirrors_positions_witness :
  Cases.point_eq
    (index_to_physical
       (Info (reconcile INPUT_COORDINATE_ORIENTATION
                DESIRED_COORDINATE_ORIENTATION small_image))
       (mkV3 0 1 2)%Z)
    (index_to_physical (Info small_image)
       (mirrored (BufferedRegion small_image) (mkV3 0 1 2)%Z)).
Proof.
  apply (notebook_reconcile_mirrors_positions small_image (mkV3 0 1 2)%Z).
  - cbn. lia.
  - cbn. lia.
  - cbn. lia.
Defined.

End Mirror.

(** ** Squeezing the fetched level and viewing it as an image *)

Section Squeeze.

Import Itk ItkImage FetchNotebook Geometry.

Lemma element_count_squeezed (shape : list nat) :
  element_count (List.filter (fun n => negb (Nat.eqb n 1)) shape)
  = element_count shape.
Proof.
  unfold element_count.
  induction shape as [| n shape IH]; [reflexivity |].
  cbn [List.filter fold_right].
  destruct (Nat.eqb_spec n 1) as [-> | Hn]; cbn [negb fold_right].
  - rewrite IH. lia.
  - now rewrite IH.
Qed.

Lemma filter_idempotent {A : Type} (f : A -> bool) (l : list A) :
  List.filter f (List.filter f l) = List.filter f l.
Proof.
  induction l as [| x l IH]; [reflexivity |].
  cbn [List.filter]. destruct (f x) eqn:Hx; [| exact IH].
  cbn [List.filter]. now rewrite Hx, IH.
Qed.

(** X19.  [np.squeeze] keeps the elements and their number: the squeezed
    shape has no axis of length one, describes as many elements as the
    original shape, and squeezing again changes nothing. *)
Theorem squeeze_keeps_elements {A : Type} (a : Np.ndarray A) :
  Np.data (Np.squeeze a) = Np.data a
  /\ element_count (Np.shape (Np.squeeze a)) = element_count (Np.shape a)
  /\ Forall (fun n => n <> 1%nat) (Np.shape (Np.squeeze a))
  /\ Np.squeeze (Np.squeeze a) = Np.squeeze a.
Proof.
  unfold Np.squeeze. cbn [Np.shape Np.data]. repeat split.
  - apply element_count_squeezed.
  - apply List.Forall_forall. intros n Hn.
    apply List.filter_In in Hn as [_ Hn].
    apply negb_true_iff in Hn. now apply Nat.eqb_neq.
  - now rewrite filter_idempotent.
Qed.

(** X20.  The fetched level becomes an image exactly when it has three
    axes longer than one; the image then has these three lengths as its
    size, read backwards.  A level with any other number of such axes (a
    single slice, say) yields no image. *)
Theorem image_to_write_succeeds_iff (fetched : Np.ndarray Z) :
  (exists written : Image, image_to_write fetched = Py.Ok written)
  <-> length (List.filter (fun n => negb (Nat.eqb n 1)) (Np.shape fetched))
      = 3%nat.
Proof.
  unfold image_to_write, image_view_from_array, Np.squeeze, Np.astype.
  cbn [Np.shape Np.data].
  destruct (List.filter _ (Np.shape fetched))
    as [| nz [| ny [| nx [| n4 rest]]]]; cbn [length Py.bind]; split;
    try (intros [written H]; discriminate H);
    try (intros H; discriminate H).
  - reflexivity.
  - intros _. eexists. reflexivity.
Qed.

End Squeeze.

(** ** Choosing the sample bucket *)

Section Bucket.

Import BucketChoice.

Lemma strip_prefix_spec (l s s' : string) :
  strip_prefix l s = Some s' <-> s = (l ++ s')%string.
Proof.
  revert s. induction l as [| a l IH]; intros s; cbn [strip_prefix append].
  - split; [intros H; now injection H as -> | now intros ->].
  - destruct s as [| b s]; [split; discriminate |].
    destruct (Ascii.eqb_spec a b) as [-> | Hne].
    + rewrite IH. split; [now intros -> | intros H; now injection H].
    + split; [discriminate | intros H; injection H as H _; congruence].
Qed.

Lemma re_match_lit (text : string) (rest : list item) (s : string) :
  re_match (Lit text :: rest) s = true
  <-> exists s' : string,
        s = (text ++ s')%string /\ re_match rest s' = true.
Proof.
  cbn [re_match]. split.
  - destruct (strip_prefix text s) as [s' |] eqn:H; [| discriminate].
    apply strip_prefix_spec in H. intros Hr. now exists s'.
  - intros (s' & Hs & Hr). apply strip_prefix_spec in Hs. now rewrite Hs.
Qed.

Lemma re_match_any_step (rest : list item) (c : ascii) (s : string) :
  re_match (AnyText :: rest) (String c s)
  = negb (Ascii.eqb c Py.newline)
    && (re_match rest s || re_match (AnyText :: rest) s).
Proof. reflexivity. Qed.

Lemma re_match_any (rest : list item) (s : string) :
  re_match (AnyText :: rest) s = true
  <-> exists a s' : string,
        some_text a /\ s = (a ++ s')%string /\ re_match rest s' = true.
Proof.
  induction s as [| c s IH].
  - split; [discriminate |].
    intros (a & s' & [Ha _] & Hs & _).
    destruct a; [congruence | discriminate Hs].
  - rewrite re_match_any_step. split.
    + intros H. apply andb_prop in H as [Hc H].
      apply orb_prop in H as [H | H].
      * exists (String c EmptyString), s. repeat split.
        -- discriminate.
        -- cbn [Py.single_line]. now rewrite Hc.
        -- exact H.
      * apply IH in H as (a & s' & [Ha Hl] & -> & Hr).
        exists (String c a), s'. repeat split.
        -- discriminate.
        -- cbn [Py.single_line]. now rewrite Hc, Hl.
        -- exact Hr.
    + intros (a & s' & [Ha Hl] & Hs & Hr).
      destruct a as [| c' a]; [congruence |].
      cbn [append] in Hs. injection Hs as -> ->.
      cbn [Py.single_line] in Hl. apply andb_prop in Hl as [Hc Hl].
      rewrite Hc. cbn [andb].
      destruct a as [| c'' a].
      * cbn [append]. now rewrite Hr.
      * apply orb_true_intro. right. apply IH.
        exists (String c'' a), s'. repeat split; [discriminate | exact Hl |].
        exact Hr.
Qed.

(** What the pattern of cell 6 accepts. *)
Lemma bucket_pattern_spec (sample_id : uint) (name : string) :
  re_match (bucket_pattern sample_id) name = true
  <-> stitched_name (id_text sample_id) name.
Proof.
  unfold bucket_pattern, stitched_name. split.
  - intros H.
    apply re_match_any in H as (a & s1 & Ha & -> & H).
    apply re_match_lit in H as (s2 & -> & H).
    apply re_match_any in H as (b & s3 & Hb & -> & H).
    apply re_match_lit in H as (s4 & -> & H).
    apply re_match_any in H as (c & tail & Hc & -> & _).
    now exists a, b, c, tail.
  - intros (a & b & c & tail & Ha & Hb & Hc & ->).
    apply re_match_any.
    exists a, (id_text sample_id ++ b ++ "stitched" ++ c ++ tail)%string.
    repeat split; try apply Ha.
    apply re_match_lit. exists (b ++ "stitched" ++ c ++ tail)%string.
    split; [reflexivity |].
    apply re_match_any. exists b, ("stitched" ++ c ++ tail)%string.
    repeat split; try apply Hb.
    apply re_match_lit. exists (c ++ tail)%string. split; [reflexivity |].
    apply re_match_any. exists c, tail. repeat split; apply Hc.
Qed.

(** X21.  For a sample identifier made of decimal digits, cell 6 selects
    the first bucket of the listing whose name reads some text, the
    identifier, some text, [stitched], some text (each non-empty and free
    of line breaks); when no bucket has such a name, [next] raises
    [StopIteration]. *)
Theorem select_bucket_first_stitched (sample_id : uint)
  (listing : list string) :
  match select_bucket sample_id listing with
  | Next bucket_name =>
      exists before after : list string,
        listing = before ++ bucket_name :: after
        /\ stitched_name (id_text sample_id) bucket_name
        /\ Forall (fun name => ~ stitched_name (id_text sample_id) name)
             before
  | StopIteration =>
      Forall (fun name => ~ stitched_name (id_text sample_id) name) listing
  end.
Proof.
  induction listing as [| name listing IH]; cbn [select_bucket].
  - constructor.
  - destruct (re_match (bucket_pattern sample_id) name) eqn:Hm.
    + exists [], listing. repeat split; [| constructor].
      now apply bucket_pattern_spec.
    + assert (Hn : ~ stitched_name (id_text sample_id) name).
      { intros H. apply bucket_pattern_spec in H. congruence. }
      destruct (select_bucket sample_id listing) as [found |].
      * destruct IH as (before & after & -> & Hs & Hb).
        exists (name :: before), after. repeat split; [exact Hs |].
        now constructor.
      * now constructor.
Qed.

(** On the listing the notebook prints, the bucket it prints is chosen. *)
Example select_bucket_notebook :
  select_bucket SAMPLE_ID listing_head
  = Next "aind-open-data/SmartSPIM_631680_2022-09-09_13-52-33_stitched_2022-11-10_17-18-18".
Proof. reflexivity. Qed.

End Bucket.

(** ** The sample name read off the path *)

Section SampleNameFacts.

Import SampleName.

Lemma split_from_cons (sep : string) (skip : nat) (s : string) :
  exists (piece : string) (rest : list string),
    split_from sep skip s = piece :: rest.
Proof.
  revert skip. induction s as [| c s IH]; intros skip.
  - now exists EmptyString, [].
  - cbn [split_from]. destruct skip as [| k]; [| apply IH].
    destruct (String.prefix sep (String c s)); [now eexists _, _ |].
    destruct (IH 0%nat) as (piece & rest & ->). now eexists _, _.
Qed.

Lemma prefix_char (c a : ascii) (s : string) :
  String.prefix (String c EmptyString) (String a s) = Ascii.eqb a c.
Proof.
  cbn [String.prefix].
  destruct (ascii_dec c a) as [-> | Hne].
  - rewrite Ascii.eqb_refl. now destruct s.
  - symmetry. apply Ascii.eqb_neq. congruence.
Qed.

(** Splitting at a character: a text without it is one piece, and the
    pieces of a text are the pieces before an occurrence followed by the
    pieces after it. *)
Lemma split_char_without (c : ascii) (x : string) :
  without c x = true -> split (String c EmptyString) x = [x].
Proof.
  unfold split. induction x as [| a x IH]; [reflexivity |].
  cbn [without]. intros H. apply andb_prop in H as [Ha Hx].
  cbn [split_from]. rewrite prefix_char.
  apply negb_true_iff in Ha. rewrite Ha. now rewrite (IH Hx).
Qed.

Lemma split_char_app (c : ascii) (x y : string) :
  split (String c EmptyString) (x ++ String c y)
  = split (String c EmptyString) x ++ split (String c EmptyString) y.
Proof.
  unfold split. induction x as [| a x IH].
  - cbn [append split_from app]. rewrite prefix_char, Ascii.eqb_refl.
    reflexivity.
  - cbn [append split_from]. rewrite !prefix_char.
    destruct (Ascii.eqb a c).
    + cbn [String.length Nat.sub]. now rewrite IH.
    + rewrite IH.
      destruct (split_from_cons (String c EmptyString) 0 x)
        as (piece & rest & ->).
      reflexivity.
Qed.

Lemma prefix_app (sep tail : string) :
  String.prefix sep (sep ++ tail) = true.
Proof.
  induction sep as [| c sep IH]; [now destruct tail |].
  cbn [append String.prefix].
  destruct (ascii_dec c c) as [_ | Hne]; [exact IH | congruence].
Qed.

(** The text before the first [.zarr], when it holds no dot. *)
Lemma split_zarr_head (channel tail : string) :
  without "." channel = true ->
  exists rest : list string,
    split ".zarr" (channel ++ ".zarr" ++ tail) = channel :: rest.
Proof.
  unfold split. induction channel as [| a channel IH]; intros H.
  - change (EmptyString ++ ".zarr" ++ tail)%string
      with (String "." ("zarr" ++ tail))%string.
    cbn [split_from].
    change (String "." ("zarr" ++ tail))%string
      with (".zarr" ++ tail)%string.
    rewrite prefix_app. now eexists.
  - cbn [without] in H. apply andb_prop in H as [Ha Hc].
    destruct (IH Hc) as [rest Hrest].
    cbn [append split_from String.prefix].
    destruct (ascii_dec "." a) as [<- | _]; [discriminate Ha |].
    change (channel ++ String "." (String "z" (String "a" (String "r"
              (String "r" tail)))))%string
      with (channel ++ ".zarr" ++ tail)%string.
    rewrite Hrest. now eexists.
Qed.

Lemma is_digit_not_space (c : ascii) : is_digit c = true -> is_space c = false.
Proof.
  unfold is_digit, is_space. cbv zeta. intros H.
  apply andb_prop in H as [H1 H2].
  apply Nat.leb_le in H1. apply Nat.leb_le in H2.
  repeat match goal with
         | |- context [(?a <=? ?b)%nat] =>
             destruct (Nat.leb_spec a b); try lia
         | |- context [(?a =? ?b)%nat] =>
             destruct (Nat.eqb_spec a b); try lia
         end; reflexivity.
Qed.

Lemma all_digits_Forall (d : string) :
  all_digits d = true ->
  Forall (fun c => is_digit c = true) (list_ascii_of_string d).
Proof.
  induction d as [| c d IH]; cbn [all_digits list_ascii_of_string];
    intros H; [constructor |].
  apply andb_prop in H as [Hc Hd]. constructor; [exact Hc | now apply IH].
Qed.

Lemma lstrip_digits (l : list ascii) :
  Forall (fun c => is_digit c = true) l -> lstrip l = l.
Proof.
  intros [| c l' Hc _]; [reflexivity |].
  cbn [lstrip]. now rewrite (is_digit_not_space c Hc).
Qed.

Lemma strip_digits (d : string) : all_digits d = true -> strip d = d.
Proof.
  intros H. apply all_digits_Forall in H. unfold strip.
  rewrite (lstrip_digits _ H).
  rewrite lstrip_digits by now apply Forall_rev.
  rewrite rev_involutive. apply string_of_list_ascii_of_string.
Qed.

Lemma digits_of_digits (d : string) (after_digit : bool) :
  all_digits d = true ->
  d <> EmptyString \/ after_digit = true ->
  digits after_digit d = Some d.
Proof.
  revert after_digit. induction d as [| c d IH]; intros b H Hne.
  - destruct Hne as [Hne | ->]; [congruence | reflexivity].
  - cbn [all_digits] in H. apply andb_prop in H as [Hc Hd].
    cbn [digits]. rewrite Hc, (IH true Hd) by now right. reflexivity.
Qed.

(** A text of digits denotes a number, written back without leading
    zeros. *)
Lemma digits_value (d : string) :
  all_digits d = true ->
  exists u : uint,
    NilEmpty.uint_of_string d = Some u
    /\ NilZero.string_of_uint (unorm u) = strip_zeros d.
Proof.
  induction d as [| c d IH]; intros H.
  - exists Nil. split; reflexivity.
  - cbn [all_digits] in H. apply andb_prop in H as [Hc Hd].
    destruct (IH Hd) as (u & Hu & Hs).
    cbn [NilEmpty.uint_of_string]. rewrite Hu.
    assert (Hback : forall u', NilEmpty.uint_of_string (String c d) = Some u' ->
                               NilEmpty.string_of_uint u' = String c d)
      by (intros u'; apply NilEmpty.sus).
    cbn [NilEmpty.uint_of_string] in Hback. rewrite Hu in Hback.
    destruct c as [[] [] [] [] [] [] [] []]; try discriminate Hc;
      cbn [uint_of_char] in *;
      eexists; (split; [reflexivity |]);
      first [ exact Hs
            | cbn [unorm strip_zeros NilZero.string_of_uint];
              now apply Hback ].
Qed.

Lemma int_of_digits (d : string) :
  all_digits d = true -> d <> EmptyString ->
  exists n : Z, int d = Done n /\ Zarr.str_of_Z n = strip_zeros d.
Proof.
  intros Hd Hne.
  destruct (digits_value d Hd) as (u & Hu & Hs).
  exists (Z.of_uint u). split.
  - unfold int. rewrite (strip_digits d Hd).
    assert (Hv : unsigned_value d = Done (Z.of_uint u)).
    { unfold unsigned_value.
      rewrite (digits_of_digits d false Hd) by now left. now rewrite Hu. }
    destruct d as [| c d]; [congruence |].
    cbn [all_digits] in Hd. apply andb_prop in Hd as [Hc _].
    destruct c as [[] [] [] [] [] [] [] []]; try discriminate Hc; exact Hv.
  - unfold Zarr.str_of_Z.
    change (Z.of_uint u) with (Z.of_int (Pos u)).
    rewrite DecimalZ.to_of. exact Hs.
Qed.

Lemma all_digits_without_underscore (d : string) :
  all_digits d = true -> without "_" d = true.
Proof.
  induction d as [| c d IH]; [reflexivity |].
  cbn [all_digits without]. intros H. apply andb_prop in H as [Hc Hd].
  rewrite (IH Hd), andb_true_r.
  destruct c as [[] [] [] [] [] [] [] []]; try discriminate Hc; reflexivity.
Qed.

(** X22.  For a path of the layout the notebook assumes, with the sample
    identifier as the second field between underscores and the channel as
    the last path component before [.zarr], the sample name is the
    identifier without its leading zeros, an underscore and the channel. *)
Theorem SAMPLE_NAME_of_conventional_path
  (path start id rest dir channel : string) :
  without "_" start = true ->
  all_digits id = true -> id <> EmptyString ->
  without "/" channel = true ->
  without "." channel = true ->
  path = (start ++ "_" ++ id ++ "_" ++ rest)%string ->
  path = (dir ++ "/" ++ channel ++ ".zarr")%string ->
  SAMPLE_NAME path = Done (strip_zeros id ++ "_" ++ channel)%string.
Proof.
  intros Hstart Hid Hne Hslash Hdot Hfields Hparts.
  destruct (int_of_digits id Hid Hne) as (n & Hint & Hstr).
  assert (HID : SAMPLE_ID path = Done n).
  { unfold SAMPLE_ID. rewrite Hfields.
    change (start ++ "_" ++ id ++ "_" ++ rest)%string
      with (start ++ String "_" (id ++ String "_" rest))%string.
    rewrite !split_char_app, (split_char_without "_" start Hstart).
    rewrite (split_char_without "_" id)
      by now apply all_digits_without_underscore.
    exact Hint. }
  assert (HCH : SAMPLE_CHANNEL path = Done channel).
  { unfold SAMPLE_CHANNEL. rewrite Hparts.
    change (dir ++ "/" ++ channel ++ ".zarr")%string
      with (dir ++ String "/" (channel ++ ".zarr"))%string.
    rewrite split_char_app.
    assert (Hlast : without "/" (channel ++ ".zarr") = true).
    { clear -Hslash. induction channel as [| c channel IH]; [reflexivity |].
      cbn [without append] in *. apply andb_prop in Hslash as [-> H].
      now rewrite (IH H). }
    rewrite (split_char_without "/" _ Hlast).
    unfold last_item. rewrite last_snoc.
    destruct (split_zarr_head channel EmptyString Hdot) as [more Hhead].
    cbn [append] in Hhead. cbn [append]. now rewrite Hhead. }
  unfold SAMPLE_NAME. now rewrite HID, HCH, Hstr.
Qed.

Lemma SAMPLE_NAME_of_conventional_path_witness :
  SAMPLE_NAME SOURCE_IMAGE_INPUT_FILEPATH = Done "631680_Ex_647_Em_690".
Proof.
  apply (SAMPLE_NAME_of_conventional_path SOURCE_IMAGE_INPUT_FILEPATH
           "../data/SmartSPIM" "631680"
           "2022-09-09_13-52-33_stitched_2022-11-10_17-18-18/processed/OMEZarr/Ex_647_Em_690.zarr"
           "../data/SmartSPIM_631680_2022-09-09_13-52-33_stitched_2022-11-10_17-18-18/processed/OMEZarr"
           "Ex_647_Em_690").
  - reflexivity.
  - reflexivity.
  - discriminate.
  - reflexivity.
  - reflexivity.
  - reflexivity.
  - reflexivity.
Defined.

End SampleNameFacts.

(** ** Paths outside the layout, read counters *)

Section EdgeCases.

Import SampleName.

(** X23.  A path without any underscore has no second field: the sample
    identifier, and with it the sample name, fails with [IndexError]. *)
Theorem SAMPLE_NAME_without_underscore (path : string) :
  without "_" path = true ->
  SAMPLE_ID path = Fails IndexError /\ SAMPLE_NAME path = Fails IndexError.
Proof.
  intros H.
  assert (HID : SAMPLE_ID path = Fails IndexError).
  { unfold SAMPLE_ID. now rewrite (split_char_without "_" path H). }
  split; [exact HID |]. unfold SAMPLE_NAME. now rewrite HID.
Qed.

Lemma SAMPLE_NAME_without_underscore_witness :
  SAMPLE_ID "../data/sample.zarr" = Fails IndexError
  /\ SAMPLE_NAME "../data/sample.zarr" = Fails IndexError.
Proof.
  apply (SAMPLE_NAME_without_underscore "../data/sample.zarr").
  reflexivity.
Defined.

End EdgeCases.

Section Counters.

Import Zarr FetchNotebook CacheStates.

Lemma getitem_counts (c : LRUStoreCache) (key : string) :
  cache_ok c -> agrees c ->
  (hits (snd (getitem c key)) + misses (snd (getitem c key))
   = hits c + misses c
     + (if stored (store c) key then 1 else 0))%nat.
Proof.
  intros Hok Hag. unfold stored.
  destruct (lookup key (values_cache c)) as [v |] eqn:Hc.
  - rewrite (getitem_hit c key v Hc). cbn [snd hits misses].
    apply Hag in Hc. rewrite Hc. lia.
  - destruct (lookup key (store c)) as [v |] eqn:Hs.
    + destruct (Z.leb_spec (buffer_size v) (max_size c)) as [Hfit | Hbig].
      * destruct (getitem_miss c key v Hok Hc Hs Hfit)
          as (dropped & kept & _ & -> & _).
        cbn [snd hits misses]. lia.
      * rewrite (getitem_oversized c key v Hc Hs Hbig).
        cbn [snd count_miss hits misses]. lia.
    + rewrite (getitem_absent c key Hc Hs). cbn [snd]. lia.
Qed.

(** X25.  The counters of the cache are exact: after any run, hits plus
    misses is the number of reads that found their key in the store (the
    read of the root group's metadata when the store was opened included);
    a read that raises [KeyError] is not counted. *)
Theorem hits_and_misses_count_reads (s : Store) (reads : list string) :
  (hits (run (open_root s) reads) + misses (run (open_root s) reads)
   = length
       (List.filter (stored s) (group_meta_key :: reads)))%nat.
Proof.
  induction reads as [| key reads IH] using rev_ind.
  - cbn [run fold_left List.filter]. rewrite open_root_unfold.
    rewrite getitem_counts.
    + cbn [hits misses store Nat.add].
      destruct (stored s group_meta_key); reflexivity.
    + repeat split; cbn; [discriminate | constructor].
    + intros k v H. discriminate H.
  - rewrite run_snoc, getitem_counts.
    + rewrite IH, run_store.
      change (group_meta_key :: reads ++ [key])
        with ((group_meta_key :: reads) ++ [key]).
      rewrite List.filter_app, length_app. cbn [List.filter].
      destruct (stored s key); reflexivity.
    + apply run_cache_ok, open_root_cache_ok.
    + apply run_agrees.
Qed.

End Counters.
